(** * device-monitor: the users CRUD service

    A shallow embedding of the Go sources of dsrose15/device-monitor
    ([main.go], [internal/api], [internal/routes]) together with the
    theorems that relate the handlers to the service specification.

    The handlers are thin: each one parses its input, issues one SQL
    statement through the pgx pool and maps the outcome to a status code.
    The embedding therefore has three parts:
    - the library functions the handlers call ([strconv.Atoi], gin's
      JSON binding and validation), modelled after their documented
      behaviour;
    - the database behind the pool: the [users] table, the id sequence,
      the database clock and the state of the link, with one function per
      SQL statement that occurs in the source;
    - the handlers and [main], translated statement by statement. *)

From Stdlib Require Import ZArith Lia Ascii String.
From stdpp Require Import base decidable option list strings sorting.

Local Open Scope string_scope.
Local Open Scope Z_scope.

Local Set Warnings "-register-all".

(** ** strconv *)

Module Strconv.

(** Go's [int] is 64 bits wide on the platforms the image is built for. *)
Definition min_int : Z := - 2 ^ 63.
Definition max_int : Z := 2 ^ 63 - 1.

Definition in_int (z : Z) : bool := (min_int <=? z) && (z <=? max_int).

(** Value of a decimal digit, [None] for any other byte
    ([ch -= '0'; if ch > 9 { syntax error }]). *)
Definition digit_val (ch : ascii) : option Z :=
  let d := Z.of_nat (nat_of_ascii ch) - 48 in
  if (0 <=? d) && (d <=? 9) then Some d else None.

(** [n = n*10 + int(ch)] over the bytes of [s]; the accumulator is
    unbounded, the range check is done by the caller. *)
Fixpoint parse_digits (acc : Z) (s : string) : option Z :=
  match s with
  | EmptyString => Some acc
  | String ch rest =>
      match digit_val ch with
      | Some d => parse_digits (acc * 10 + d) rest
      | None => None
      end
  end.

(** An unsigned decimal numeral: at least one digit, digits only. *)
Definition parse_uint (s : string) : option Z :=
  match s with
  | EmptyString => None
  | _ => parse_digits 0 s
  end.

(** [strconv.Atoi]: an optional sign followed by decimal digits, the
    value in the range of [int]; [None] stands for the returned
    [*NumError] (syntax or range). *)
Definition Atoi (s : string) : option Z :=
  let signed :=
    match s with
    | String "-" rest => Z.opp <$> parse_uint rest
    | String "+" rest => parse_uint rest
    | _ => parse_uint s
    end in
  match signed with
  | Some n => if in_int n then Some n else None
  | None => None
  end.

(** Decimal digit of [d] in [0..9]. *)
Definition digit_char (d : Z) : ascii :=
  ascii_of_nat (Z.to_nat (d + 48)).

(** Digits of a non-negative number, most significant first, prepended
    to [acc]; [fuel] bounds the number of digits. *)
Fixpoint utoa (fuel : nat) (n : Z) (acc : string) : string :=
  match fuel with
  | O => acc
  | S fuel' =>
      let acc' := String (digit_char (n mod 10)) acc in
      if n <? 10 then acc' else utoa fuel' (n / 10) acc'
  end.

(** [strconv.Itoa] for values of [int]: at most 19 digits. *)
Definition Itoa (z : Z) : string :=
  if z <? 0 then String "-" (utoa 20 (- z) "") else utoa 20 z "".

End Strconv.

(** ** Go values shared by the packages *)

(** The errors that reach the handlers. Go compares errors by identity
    ([err == pgx.ErrNoRows]); every other use in the handlers is the
    text [err.Error()]. *)
Record FieldError := { fe_field : string; fe_tag : string }.

Inductive error :=
| ErrNoRows                                  (* pgx.ErrNoRows *)
| ErrJSON (msg : string)                     (* encoding/json: syntax error, EOF *)
| ErrUnmarshalType (kind field : string)     (* *json.UnmarshalTypeError *)
| ErrValidation (fes : list FieldError)      (* validator.ValidationErrors *)
| ErrScan (column : string)                  (* pgx: cannot scan NULL into *T *)
| ErrPg (sqlstate : string)                  (* *pgconn.PgError *)
| ErrConn (msg : string).                    (* connection, acquire, timeout *)

Definition is_ErrNoRows (e : error) : bool :=
  match e with ErrNoRows => true | _ => false end.

(** A Go slice: [nil] or a backing list. [append] on [nil] allocates. *)
Inductive slice (A : Type) :=
| nil_slice
| mk_slice (elems : list A).
Arguments nil_slice {A}.
Arguments mk_slice {A} elems.

Definition append {A} (s : slice A) (x : A) : slice A :=
  match s with
  | nil_slice => mk_slice [x]
  | mk_slice l => mk_slice (l ++ [x])
  end.

Definition elems {A} (s : slice A) : list A :=
  match s with
  | nil_slice => []
  | mk_slice l => l
  end.

Definition len {A} (s : slice A) : Z := Z.of_nat (length (elems s)).

(** [time.Time] and the database's [timestamp]: microseconds since the
    epoch. *)
Definition Time := Z.

(** ** encoding/json *)

Module Json.

(** A decoded JSON text. Numbers are kept as integers: the request
    structs have string fields only, so every number is a type error
    whatever its value, and the responses hold integers only. *)
Inductive json :=
| JNull
| JBool (b : bool)
| JNumber (n : Z)
| JString (s : string)
| JArray (items : list json)
| JObject (fields : list (string * json)).

(** The word [UnmarshalTypeError] uses for the offending value. *)
Definition kind (j : json) : string :=
  match j with
  | JNull => "null"
  | JBool _ => "bool"
  | JNumber _ => "number"
  | JString _ => "string"
  | JArray _ => "array"
  | JObject _ => "object"
  end.

(** Object keys are matched against the field names without regard to
    ASCII case. *)
Definition lower (c : ascii) : ascii :=
  let n := nat_of_ascii c in
  if (65 <=? n)%nat && (n <=? 90)%nat then ascii_of_nat (n + 32) else c.

Fixpoint fold_key (s : string) : string :=
  match s with
  | EmptyString => EmptyString
  | String c rest => String (lower c) (fold_key rest)
  end.

End Json.

(** ** gin: request context, JSON binding and validation *)

Module Gin.
Import Json.

(** What [json.NewDecoder(req.Body).Decode] reads: either no JSON value
    can be decoded (syntax error, empty body; [msg] is the decoder's
    message) or the first JSON value of the body. *)
Inductive reqbody :=
| Undecodable (msg : string)
| Decoded (j : json).

Record Context := {
  Params : list (string * string);
  Body : reqbody
}.

(** [c.Param(key)]: the value of the first parameter named [key], the
    empty string when there is none. *)
Fixpoint ByName (ps : list (string * string)) (key : string) : string :=
  match ps with
  | [] => ""
  | (k, v) :: rest => if String.eqb k key then v else ByName rest key
  end.

Definition Param (c : Context) (key : string) : string := ByName (Params c) key.

(** The anonymous struct both handlers bind:
    [struct { Name string `json:"name" binding:"required"`
              Email string `json:"email" binding:"required,email"` }]. *)
Record UserInput := { in_Name : string; in_Email : string }.

(** One key of the object: a string is stored in the field the key
    names, [null] leaves the field as it is, a value of another kind is
    a type error, unknown keys are skipped. The decoder keeps the first
    type error and goes on. *)
Definition decode_field (st : option error * UserInput) (kv : string * json)
  : option error * UserInput :=
  let '(saved, u) := st in
  let '(k, v) := kv in
  let save e := match saved with Some _ => saved | None => Some e end in
  if String.eqb (fold_key k) "name" then
    match v with
    | JString s => (saved, {| in_Name := s; in_Email := in_Email u |})
    | JNull => (saved, u)
    | _ => (save (ErrUnmarshalType (kind v) "name"), u)
    end
  else if String.eqb (fold_key k) "email" then
    match v with
    | JString s => (saved, {| in_Name := in_Name u; in_Email := s |})
    | JNull => (saved, u)
    | _ => (save (ErrUnmarshalType (kind v) "email"), u)
    end
  else (saved, u).

(** [json.Unmarshal] into a zero [UserInput]. *)
Definition Decode (j : json) : error + UserInput :=
  let zero := {| in_Name := ""; in_Email := "" |} in
  match j with
  | JNull => inr zero
  | JObject fields =>
      match fold_left decode_field fields (None, zero) with
      | (Some e, _) => inl e
      | (None, u) => inr u
      end
  | _ => inl (ErrUnmarshalType (kind j) "")
  end.

Section Binding.

(** The [email] rule of go-playground/validator, a regular expression
    that is not part of this repository. *)
Variable is_email : string -> bool.

(** [required] fails on the zero value; a field's rules are tried in
    order and the first failure is reported; all fields are checked. *)
Definition validate (u : UserInput) : list FieldError :=
  (if String.eqb (in_Name u) "" then [{| fe_field := "Name"; fe_tag := "required" |}]
   else []) ++
  (if String.eqb (in_Email u) "" then [{| fe_field := "Email"; fe_tag := "required" |}]
   else if is_email (in_Email u) then []
   else [{| fe_field := "Email"; fe_tag := "email" |}]).

(** [c.ShouldBindJSON(&obj)]: decode, then validate. *)
Definition ShouldBindJSON (c : Context) : error + UserInput :=
  match Body c with
  | Undecodable msg => inl (ErrJSON msg)
  | Decoded j =>
      match Decode j with
      | inl e => inl e
      | inr u =>
          match validate u with
          | [] => inr u
          | fes => inl (ErrValidation fes)
          end
      end
  end.

(** The bodies the specification calls malformed or invalid: no JSON value
    can be read, a value has the wrong type, the object has no [name]
    key, the name is empty, or the email does not pass the [email]
    rule. *)
Inductive bad_body : reqbody -> Prop :=
| bad_syntax msg : bad_body (Undecodable msg)
| bad_type j e : Decode j = inl e -> bad_body (Decoded j)
| bad_missing_name fields :
    (forall k v, (k, v) ∈ fields -> fold_key k <> "name") ->
    bad_body (Decoded (JObject fields))
| bad_empty_name j u : Decode j = inr u -> in_Name u = "" -> bad_body (Decoded j)
| bad_email j u : Decode j = inr u -> is_email (in_Email u) = false -> bad_body (Decoded j).

End Binding.

End Gin.

(** ** The database behind the pool *)

Module Pg.

(** Modelled from the spec: the schema of the [users] table (the init
    script that creates it is not among the sources). [id] is the
    primary key, assigned from the table's sequence; the other columns
    are the ones the statements of the handlers name. The statements
    always write all of them, but nothing in the sources declares them
    [NOT NULL], so a stored row may hold [NULL] in any of them. *)
Record Row := {
  id : Z;
  name : option string;
  email : option string;
  created_at : option Time;
  updated_at : option Time
}.

(** Modelled from the spec: the database as the statements see it. [now]
    is what [NOW()] returns to the next statement; [link] is [Some e]
    when the pool cannot run a statement (server unreachable, no
    connection acquired in time), [e] being the message of the error the
    call returns. *)
Record DB := {
  users : list Row;
  users_id_seq : Z;
  now : Time;
  link : option string
}.

Definition set_users (db : DB) (rows : list Row) : DB :=
  {| users := rows; users_id_seq := users_id_seq db; now := now db; link := link db |}.

Definition advance_seq (db : DB) : DB :=
  {| users := users db; users_id_seq := users_id_seq db + 1; now := now db; link := link db |}.

(** The primary key: no two rows share an id. *)
Definition pk_unique (db : DB) : Prop := NoDup (map id (users db)).

(** [pgx.Rows]: the rows [Next] steps through and the error [Err]
    reports once the iteration has ended. *)
Record Rows := { fetched : list Row; rows_err : option error }.

(** [pool.Ping(ctx)] *)
Definition Ping (db : DB) : option error := ErrConn <$> link db.

(** [ORDER BY created_at DESC]: later rows first, [NULL] before every
    value. *)
Definition created_desc (r1 r2 : Row) : Prop :=
  match created_at r1, created_at r2 with
  | None, _ => True
  | Some _, None => False
  | Some a, Some b => b <= a
  end.

#[global] Instance created_desc_dec r1 r2 : Decision (created_desc r1 r2).
Proof.
  unfold created_desc.
  destruct (created_at r1), (created_at r2); apply _.
Defined.

(** [SELECT id, name, email, created_at, updated_at FROM users
     ORDER BY created_at DESC] *)
Definition select_users (db : DB) : error + Rows :=
  match link db with
  | Some msg => inl (ErrConn msg)
  | None => inr {| fetched := merge_sort created_desc (users db); rows_err := None |}
  end.

(** [SELECT id, name, email, created_at, updated_at FROM users
     WHERE id = $1]; the first row of the result, [ErrNoRows] when the
     result is empty (what [QueryRow(...).Scan] sees). *)
Definition select_user (db : DB) (i : Z) : error + Row :=
  match link db with
  | Some msg => inl (ErrConn msg)
  | None =>
      match filter (fun r => id r = i) (users db) with
      | [] => inl ErrNoRows
      | r :: _ => inr r
      end
  end.

(** The row an insert stores: the id from the sequence, both
    timestamps [NOW()]. *)
Definition new_row (db : DB) (n e : string) : Row :=
  {| id := users_id_seq db; name := Some n; email := Some e;
     created_at := Some (now db); updated_at := Some (now db) |}.

(** [INSERT INTO users (name, email, created_at, updated_at)
     VALUES ($1, $2, NOW(), NOW())
     RETURNING id, name, email, created_at, updated_at].
    The id is the next value of the sequence; a sequence that has left
    the range of its type fails (SQLSTATE 2200H); a value that is taken
    violates the primary key (23505), the sequence staying advanced. *)
Definition insert_user (db : DB) (n e : string) : (error + Row) * DB :=
  match link db with
  | Some msg => (inl (ErrConn msg), db)
  | None =>
      let i := users_id_seq db in
      if negb (Strconv.in_int i) then (inl (ErrPg "2200H"), db)
      else if bool_decide (i ∈ map id (users db)) then (inl (ErrPg "23505"), advance_seq db)
      else
        let r := new_row db n e in
        (inr r, set_users (advance_seq db) (users db ++ [r]))
  end.

(** The [SET] clause of the update applied to one row. *)
Definition set_row (n e : string) (t : Time) (r : Row) : Row :=
  {| id := id r; name := Some n; email := Some e;
     created_at := created_at r; updated_at := Some t |}.

(** [UPDATE users SET name = $1, email = $2, updated_at = NOW()
     WHERE id = $3
     RETURNING id, name, email, created_at, updated_at] *)
Definition update_user (db : DB) (n e : string) (i : Z) : (error + Row) * DB :=
  match link db with
  | Some msg => (inl (ErrConn msg), db)
  | None =>
      let upd r := if decide (id r = i) then set_row n e (now db) r else r in
      match filter (fun r => id r = i) (users db) with
      | [] => (inl ErrNoRows, db)
      | r :: _ => (inr (set_row n e (now db) r), set_users db (map upd (users db)))
      end
  end.

(** [DELETE FROM users WHERE id = $1]; the result is the command tag's
    [RowsAffected()]. *)
Definition delete_user (db : DB) (i : Z) : (error + Z) * DB :=
  match link db with
  | Some msg => (inl (ErrConn msg), db)
  | None =>
      (inr (Z.of_nat (length (filter (fun r => id r = i) (users db)))),
       set_users db (filter (fun r => id r <> i) (users db)))
  end.

End Pg.

(** ** net/http status codes *)

Module Http.
Definition StatusOK : Z := 200.
Definition StatusCreated : Z := 201.
Definition StatusBadRequest : Z := 400.
Definition StatusNotFound : Z := 404.
Definition StatusInternalServerError : Z := 500.
Definition StatusServiceUnavailable : Z := 503.
End Http.

(** ** package api: the handlers *)

Module Api.
Import Http.

Record User := {
  ID : Z;
  Name : string;
  Email : string;
  CreatedAt : Time;
  UpdatedAt : Time
}.


(** The values the handlers put into a [gin.H]. [VErrorText e] is the
    string [e.Error()]. *)
Inductive value :=
| VString (s : string)
| VInt (n : Z)
| VTime (t : Time)
| VErrorText (e : error)
| VUser (u : User)
| VUsers (us : slice User).

(** [gin.H], a [map[string]any]; the keys of one literal are distinct. *)
Definition H := list (string * value).

(** What [c.JSON(code, obj)] writes. *)
Record Response := { Status : Z; Payload : H }.

Definition JSON (code : Z) (obj : H) : Response := {| Status := code; Payload := obj |}.

(** The value stored under [key]. *)
Fixpoint field (obj : H) (key : string) : option value :=
  match obj with
  | [] => None
  | (k, v) :: rest => if String.eqb k key then Some v else field rest key
  end.

(** [row.Scan(&user.ID, &user.Name, &user.Email, &user.CreatedAt,
     &user.UpdatedAt)]: the columns in order, a [NULL] cannot be
    stored in a [string] or a [time.Time]. *)
Definition Scan (r : Pg.Row) : error + User :=
  match Pg.name r with
  | None => inl (ErrScan "name")
  | Some n =>
      match Pg.email r with
      | None => inl (ErrScan "email")
      | Some e =>
          match Pg.created_at r with
          | None => inl (ErrScan "created_at")
          | Some c =>
              match Pg.updated_at r with
              | None => inl (ErrScan "updated_at")
              | Some u =>
                  inr {| ID := Pg.id r; Name := n; Email := e;
                         CreatedAt := c; UpdatedAt := u |}
              end
          end
      end
  end.

(** [pool.QueryRow(...).Scan(...)]: the error of the query, or the
    scan of its first row. *)
Definition ScanRow (q : error + Pg.Row) : error + User :=
  match q with
  | inl e => inl e
  | inr r => Scan r
  end.

(** The loop [for rows.Next() { ...; users = append(users, user) }] of
    [GetUsers]; [inl] is the early return on a failed scan. *)
Fixpoint scan_loop (rows : list Pg.Row) (users : slice User) : error + slice User :=
  match rows with
  | [] => inr users
  | r :: rest =>
      match Scan r with
      | inl e => inl e
      | inr user => scan_loop rest (append users user)
      end
  end.

(** [HealthCheck]; [t] is what [time.Now()] returns. *)
Definition HealthCheck (db : Pg.DB) (t : Time) : Response :=
  match Pg.Ping db with
  | Some err =>
      JSON StatusServiceUnavailable
        [("status", VString "unhealthy");
         ("message", VString "Database connection failed");
         ("error", VErrorText err)]
  | None =>
      JSON StatusOK
        [("status", VString "healthy");
         ("message", VString "Service is running");
         ("time", VTime t)]
  end.

(** [Ping] *)
Definition Ping (t : Time) : Response :=
  JSON StatusOK [("message", VString "pong"); ("time", VTime t)].

(** [GetUsers] *)
Definition GetUsers (db : Pg.DB) : Response :=
  match Pg.select_users db with
  | inl _ =>
      JSON StatusInternalServerError [("error", VString "Failed to fetch users")]
  | inr rows =>
      match scan_loop (Pg.fetched rows) nil_slice with
      | inl _ =>
          JSON StatusInternalServerError [("error", VString "Failed to scan user data")]
      | inr users =>
          match Pg.rows_err rows with
          | Some _ =>
              JSON StatusInternalServerError
                [("error", VString "Error iterating over rows")]
          | None =>
              JSON StatusOK [("users", VUsers users); ("count", VInt (len users))]
          end
      end
  end.

(** [GetUser] *)
Definition GetUser (db : Pg.DB) (c : Gin.Context) : Response :=
  let idStr := Gin.Param c "id" in
  match Strconv.Atoi idStr with
  | None => JSON StatusBadRequest [("error", VString "Invalid user ID")]
  | Some id =>
      match ScanRow (Pg.select_user db id) with
      | inl err =>
          if is_ErrNoRows err then
            JSON StatusNotFound [("error", VString "User not found")]
          else
            JSON StatusInternalServerError [("error", VString "Failed to fetch user")]
      | inr user => JSON StatusOK [("user", VUser user)]
      end
  end.

Section Binding.

Variable is_email : string -> bool.

(** [CreateUser] *)
Definition CreateUser (db : Pg.DB) (c : Gin.Context) : Response * Pg.DB :=
  match Gin.ShouldBindJSON is_email c with
  | inl err => (JSON StatusBadRequest [("error", VErrorText err)], db)
  | inr newUser =>
      let '(q, db') := Pg.insert_user db (Gin.in_Name newUser) (Gin.in_Email newUser) in
      match ScanRow q with
      | inl _ =>
          (JSON StatusInternalServerError [("error", VString "Failed to create user")], db')
      | inr user =>
          (JSON StatusCreated
             [("message", VString "User created successfully"); ("user", VUser user)], db')
      end
  end.

(** [UpdateUser] *)
Definition UpdateUser (db : Pg.DB) (c : Gin.Context) : Response * Pg.DB :=
  let idStr := Gin.Param c "id" in
  match Strconv.Atoi idStr with
  | None => (JSON StatusBadRequest [("error", VString "Invalid user ID")], db)
  | Some id =>
      match Gin.ShouldBindJSON is_email c with
      | inl err => (JSON StatusBadRequest [("error", VErrorText err)], db)
      | inr updateUser =>
          let '(q, db') :=
            Pg.update_user db (Gin.in_Name updateUser) (Gin.in_Email updateUser) id in
          match ScanRow q with
          | inl err =>
              if is_ErrNoRows err then
                (JSON StatusNotFound [("error", VString "User not found")], db')
              else
                (JSON StatusInternalServerError
                   [("error", VString "Failed to update user")], db')
          | inr user =>
              (JSON StatusOK
                 [("message", VString "User updated successfully"); ("user", VUser user)],
               db')
          end
      end
  end.

End Binding.

(** [DeleteUser] *)
Definition DeleteUser (db : Pg.DB) (c : Gin.Context) : Response * Pg.DB :=
  let idStr := Gin.Param c "id" in
  match Strconv.Atoi idStr with
  | None => (JSON StatusBadRequest [("error", VString "Invalid user ID")], db)
  | Some id =>
      let '(q, db') := Pg.delete_user db id in
      match q with
      | inl _ =>
          (JSON StatusInternalServerError [("error", VString "Failed to delete user")], db')
      | inr rowsAffected =>
          if rowsAffected =? 0 then
            (JSON StatusNotFound [("error", VString "User not found")], db')
          else
            (JSON StatusOK [("message", VString "User deleted successfully")], db')
      end
  end.

End Api.

(** ** The response body on the wire *)

Module Render.
Import Json Api.

(** Map keys are written in increasing order. *)
Definition key_le (a b : string * value) : Prop := String.leb (fst a) (fst b) = true.

#[global] Instance key_le_dec a b : Decision (key_le a b).
Proof. unfold key_le. apply _. Defined.

Section Marshal.

(** The RFC 3339 text of a [time.Time] and the text of an error; both
    come from libraries and no handler looks into them. *)
Variable format_time : Time -> string.
Variable error_text : error -> string.

(** The [json] tags of [User]. *)
Definition marshal_user (u : User) : json :=
  JObject [("id", JNumber (ID u));
           ("name", JString (Name u));
           ("email", JString (Email u));
           ("created_at", JString (format_time (CreatedAt u)));
           ("updated_at", JString (format_time (UpdatedAt u)))].

(** A nil slice is written as [null], any other slice as an array. *)
Definition marshal_value (v : value) : json :=
  match v with
  | VString s => JString s
  | VInt n => JNumber n
  | VTime t => JString (format_time t)
  | VErrorText e => JString (error_text e)
  | VUser u => marshal_user u
  | VUsers nil_slice => JNull
  | VUsers (mk_slice l) => JArray (map marshal_user l)
  end.

Definition marshal (h : H) : json :=
  JObject (map (fun kv => (fst kv, marshal_value (snd kv))) (merge_sort key_le h)).

End Marshal.

End Render.

(** ** package main: the life of the process *)

Module Proc.

(** What the process does that can be seen from outside. *)
Inductive event :=
| EvLog (msg : string)
| EvPoolClose
| EvSetupRoutes
| EvListen (addr : string).

(** How a call ends: it returns, the process exits through [os.Exit],
    it panics, or the call never returns (the server keeps serving
    until the process is killed). *)
Inductive result (A : Type) :=
| Return (a : A)
| OsExit (code : Z)
| Panic (v : string)
| Serving.
Arguments Return {A} a.
Arguments OsExit {A} code.
Arguments Panic {A} v.
Arguments Serving {A}.

(** The running function: its deferred calls, latest first, and the
    events so far. *)
Record frame := { deferred : list event; trace : list event }.

Definition M (A : Type) : Type := frame -> result A * frame.

Definition ret {A} (a : A) : M A := fun f => (Return a, f).

Definition bind {A B} (m : M A) (k : A -> M B) : M B :=
  fun f =>
    match m f with
    | (Return a, f') => k a f'
    | (OsExit code, f') => (OsExit code, f')
    | (Panic v, f') => (Panic v, f')
    | (Serving, f') => (Serving, f')
    end.

Definition emit (ev : event) : M unit :=
  fun f => (Return tt, {| deferred := deferred f; trace := trace f ++ [ev] |}).

(** [defer ev] *)
Definition defer (ev : event) : M unit :=
  fun f => (Return tt, {| deferred := ev :: deferred f; trace := trace f |}).

(** [os.Exit(code)]: the process ends at once, deferred calls are not
    run. *)
Definition os_Exit {A} (code : Z) : M A := fun f => (OsExit code, f).

(** [panic(v)] *)
Definition panic {A} (v : string) : M A := fun f => (Panic v, f).

(** [log.Fatal(v)]: [Print] followed by [os.Exit(1)]. *)
Definition log_Fatal {A} (msg : string) : M A :=
  bind (emit (EvLog msg)) (fun _ => os_Exit 1).

(** Running a function body to its end: when it returns, and when it
    panics, its deferred calls run, latest first; no deferred call
    recovers here, so a panic goes on to the caller. *)
Definition call {A} (body : M A) : result A * list event :=
  match body {| deferred := []; trace := [] |} with
  | (Return a, f) => (Return a, (trace f ++ deferred f)%list)
  | (OsExit code, f) => (OsExit code, trace f)
  | (Panic v, f) => (Panic v, (trace f ++ deferred f)%list)
  | (Serving, f) => (Serving, trace f)
  end.

(** The exit status of the process when [main] ends in this way: 0
    when it returns, the argument of [os.Exit], 2 when a panic was
    not recovered; none while the server is serving. *)
Definition exit_status {A} (r : result A) : option Z :=
  match r with
  | Return _ => Some 0
  | OsExit code => Some code
  | Panic _ => Some 2
  | Serving => None
  end.

End Proc.

Module Main.
Import Proc.

Notation "x <- m ;; k" := (bind m (fun x => k))
  (at level 100, m at next level, right associativity).
Notation "m ;;; k" := (bind m (fun _ => k))
  (at level 100, right associativity).

(** The surroundings of one run: the environment variables, whether
    [initDB] gets its pool ([Some msg]: it returns the error [msg]),
    whether the templates load ([Some msg]: no file matches
    [templates/*] or one does not parse, [msg] being the error) and
    how [http.ListenAndServe] ends ([Some msg]: it returns the error
    [msg]; [None]: it serves until the process is killed). *)
Record Env := {
  getenv : string -> string;
  initDB_err : option string;
  templates_err : option string;
  listen_err : option string
}.

Definition initDB (env : Env) : string + unit :=
  match initDB_err env with
  | Some msg => inl msg
  | None => inr tt
  end.

(** [routes.SetupRoutes(app.Router, app.DB)] as [main] sees it: the
    registrations return, except [router.LoadHTMLGlob("templates/*")],
    which panics when the templates do not load. *)
Definition SetupRoutes (env : Env) : M unit :=
  match templates_err env with
  | Some msg => panic msg
  | None => emit EvSetupRoutes
  end.

(** [http.ListenAndServe(addr, router)] *)
Definition ListenAndServe (env : Env) (addr : string) : M string :=
  emit (EvListen addr) ;;;
  match listen_err env with
  | Some msg => ret msg
  | None => fun f => (Serving, f)
  end.

(** [main] *)
Definition main (env : Env) : M unit :=
  match initDB env with
  | inl err => log_Fatal ("Failed to connect to database:" ++ err)
  | inr _ =>
      defer EvPoolClose ;;;
      SetupRoutes env ;;;
      let port := if String.eqb (getenv env "PORT") "" then "8080" else getenv env "PORT" in
      emit (EvLog ("Server starting on port " ++ port)) ;;;
      err <- ListenAndServe env (":" ++ port) ;;
      log_Fatal err
  end.

(** [main] as it would read without the final [log.Fatal]: the error
    is printed and [main] returns. *)
Definition main_returning (env : Env) : M unit :=
  match initDB env with
  | inl err => log_Fatal ("Failed to connect to database:" ++ err)
  | inr _ =>
      defer EvPoolClose ;;;
      SetupRoutes env ;;;
      let port := if String.eqb (getenv env "PORT") "" then "8080" else getenv env "PORT" in
      emit (EvLog ("Server starting on port " ++ port)) ;;;
      err <- ListenAndServe env (":" ++ port) ;;
      emit (EvLog err)
  end.

End Main.

(** ** package routes *)

Module Routes.

Inductive method := GET | HEAD | POST | PUT | DELETE.

(** The handlers of package api, and the file server [router.Static]
    installs. *)
Inductive handler :=
| HealthCheck | GetUsers | GetUser | CreateUser | UpdateUser | DeleteUser | Ping | Index
| Static.

(** A segment of a route pattern: a literal, a named parameter
    ([:id]), which matches one non-empty segment, or a catch-all
    ([*filepath]), which ends the pattern and matches the rest of the
    path. *)
Inductive seg := Lit (s : string) | Par (key : string) | CatchAll (key : string).

(** The routes [SetupRoutes] registers, in its order, groups
    expanded; [router.Static("/static", "./static")] registers
    [/static/*filepath] for GET and for HEAD. *)
Definition SetupRoutes : list (method * list seg * handler) :=
  [ (GET, [Lit "health"], HealthCheck);
    (GET, [Lit "api"; Lit "v1"; Lit "users"], GetUsers);
    (GET, [Lit "api"; Lit "v1"; Lit "users"; Par "id"], GetUser);
    (POST, [Lit "api"; Lit "v1"; Lit "users"], CreateUser);
    (PUT, [Lit "api"; Lit "v1"; Lit "users"; Par "id"], UpdateUser);
    (DELETE, [Lit "api"; Lit "v1"; Lit "users"; Par "id"], DeleteUser);
    (GET, [Lit "api"; Lit "v1"; Lit "ping"], Ping);
    (GET, [Lit "static"; CatchAll "filepath"], Static);
    (HEAD, [Lit "static"; CatchAll "filepath"], Static);
    (GET, [], Index) ].

Definition method_eqb (a b : method) : bool :=
  match a, b with
  | GET, GET | HEAD, HEAD | POST, POST | PUT, PUT | DELETE, DELETE => true
  | _, _ => false
  end.

(** The segments of a path put together again. *)
Fixpoint join_path (segs : list string) : string :=
  match segs with
  | [] => ""
  | [x] => x
  | x :: rest => x +:+ "/" +:+ join_path rest
  end.

(** The parameters a path binds when it matches a pattern. A
    catch-all binds what is left of the path, the leading slash
    included. *)
Fixpoint match_path (pat : list seg) (path : list string) : option (list (string * string)) :=
  match pat, path with
  | [], [] => Some []
  | Lit s :: pat', x :: path' => if String.eqb s x then match_path pat' path' else None
  | Par key :: pat', x :: path' =>
      if String.eqb x "" then None
      else cons (key, x) <$> match_path pat' path'
  | [CatchAll key], x :: path' => Some [(key, "/" +:+ join_path (x :: path'))]
  | _, _ => None
  end.

Fixpoint lookup (routes : list (method * list seg * handler)) (m : method) (path : list string)
  : option (handler * list (string * string)) :=
  match routes with
  | [] => None
  | (m', pat, h) :: rest =>
      if method_eqb m' m then
        match match_path pat path with
        | Some ps => Some (h, ps)
        | None => lookup rest m path
        end
      else lookup rest m path
  end.

End Routes.

(** ** Sample data *)

Module Sample.
Import Pg.

(** A stand-in for the validator's [email] rule: some byte is [@]. *)
Fixpoint has_at (s : string) : bool :=
  match s with
  | EmptyString => false
  | String c rest => Ascii.eqb c "@" || has_at rest
  end.

Definition ada : Row :=
  {| id := 1; name := Some "Ada"; email := Some "ada@example.com";
     created_at := Some 100; updated_at := Some 100 |}.

Definition bob : Row :=
  {| id := 2; name := Some "Bob"; email := Some "bob@example.com";
     created_at := Some 250; updated_at := Some 300 |}.

(** A row written by another client, with no name. *)
Definition anon : Row :=
  {| id := 3; name := None; email := Some "x@example.com";
     created_at := Some 200; updated_at := Some 200 |}.

Definition empty_db : DB :=
  {| users := []; users_id_seq := 1; now := 1000; link := None |}.

Definition db2 : DB :=
  {| users := [ada; bob]; users_id_seq := 3; now := 300; link := None |}.

Definition db3 : DB :=
  {| users := [ada; bob; anon]; users_id_seq := 4; now := 1000; link := None |}.

Definition db_down : DB :=
  {| users := [ada; bob]; users_id_seq := 3; now := 1000;
     link := Some "connection refused" |}.

Definition ctx (idStr : string) (body : Gin.reqbody) : Gin.Context :=
  {| Gin.Params := [("id", idStr)]; Gin.Body := body |}.

Definition no_body : Gin.reqbody := Gin.Undecodable "EOF".

Definition body_of (fields : list (string * Json.json)) : Gin.reqbody :=
  Gin.Decoded (Json.JObject fields).

Definition ada_body : Gin.reqbody :=
  body_of [("name", Json.JString "Ada"); ("email", Json.JString "ada@example.com")].

Definition grace_body : Gin.reqbody :=
  body_of [("name", Json.JString "Grace"); ("email", Json.JString "grace@example.com")].

End Sample.

(** ** The server as a sequence of requests *)

Module Server.
Import Pg Api.

(** One request that has reached its handler; requests are served one
    after the other, each on the database the previous one left. *)
Inductive request :=
| ReqHealth (t : Time)
| ReqList
| ReqGet (c : Gin.Context)
| ReqCreate (c : Gin.Context)
| ReqUpdate (c : Gin.Context)
| ReqDelete (c : Gin.Context).

Section Serve.

Variable is_email : string -> bool.

Definition serve (db : DB) (req : request) : Response * DB :=
  match req with
  | ReqHealth t => (HealthCheck db t, db)
  | ReqList => (GetUsers db, db)
  | ReqGet c => (GetUser db c, db)
  | ReqCreate c => CreateUser is_email db c
  | ReqUpdate c => UpdateUser is_email db c
  | ReqDelete c => DeleteUser db c
  end.

(** The database after a run of requests. *)
Definition run (reqs : list request) (db : DB) : DB :=
  fold_left (fun d req => snd (serve d req)) reqs db.

(** A row as the handlers write it: a name that is not empty and an
    email that passes the [email] rule. *)
Definition api_row (r : Row) : Prop :=
  exists n e, name r = Some n /\ n <> "" /\ email r = Some e /\ e <> "" /\ is_email e = true.

End Serve.

(** The timestamps of a row are in order and not ahead of the
    database time. *)
Definition time_ok (db : DB) : Prop :=
  Forall (fun r => forall c, created_at r = Some c ->
                     c <= now db /\ forall u, updated_at r = Some u -> c <= u)
         (users db).

(** The database when its clock reads [t]. *)
Definition at_time (t : Time) (db : DB) : DB :=
  {| users := users db; users_id_seq := users_id_seq db; now := t; link := link db |}.

(** The errors of the binding, as opposed to those of the database. *)
Definition is_bind_error (e : error) : bool :=
  match e with
  | ErrJSON _ | ErrUnmarshalType _ _ | ErrValidation _ => true
  | _ => false
  end.

End Server.

(** * Properties *)

Import Strconv Json Gin Pg Http Api.

(** Closes [forall r, r ∈ rows -> P r] for a literal list of rows. *)
Ltac no_such_row :=
  apply Forall_forall; repeat (constructor; [by vm_compute|]); constructor.

(** ** The statements *)

Section Statements.

Implicit Types (db : DB) (r : Row) (i : Z).

Lemma select_user_down db i msg :
  link db = Some msg -> select_user db i = inl (ErrConn msg).
Proof. intros Hl. unfold select_user. by rewrite Hl. Qed.

Lemma select_user_no_rows db i :
  link db = None ->
  (forall r, r ∈ users db -> id r <> i) ->
  select_user db i = inl ErrNoRows.
Proof.
  intros Hl Hnone. unfold select_user. rewrite Hl.
  destruct (filter (fun r => id r = i) (users db)) as [|r rest] eqn:Hf; [done|].
  assert (r ∈ filter (fun r => id r = i) (users db)) as Hin
    by (rewrite Hf; apply list_elem_of_here).
  apply list_elem_of_filter in Hin as [Hid Hr].
  by destruct (Hnone r Hr).
Qed.

Lemma select_user_found db i r :
  select_user db i = inr r -> link db = None /\ r ∈ users db /\ id r = i.
Proof.
  unfold select_user. destruct (link db); [done|].
  destruct (filter (fun r => id r = i) (users db)) as [|r' rest] eqn:Hf; [done|].
  intros [= <-]. split; [done|].
  assert (r' ∈ filter (fun r => id r = i) (users db)) as Hin
    by (rewrite Hf; apply list_elem_of_here).
  apply list_elem_of_filter in Hin as [Hid Hr]. done.
Qed.

Lemma select_user_error db i e :
  select_user db i = inl e ->
  (exists msg, link db = Some msg /\ e = ErrConn msg) \/
  (link db = None /\ e = ErrNoRows /\ forall r, r ∈ users db -> id r <> i).
Proof.
  unfold select_user. destruct (link db) as [msg|].
  - intros [= <-]. left. by exists msg.
  - destruct (filter (fun r => id r = i) (users db)) as [|r' rest] eqn:Hf; [|done].
    intros [= <-]. right. repeat split.
    intros r Hr Hid. by apply (filter_nil_not_elem_of _ _ r Hf).
Qed.

Lemma Scan_not_ErrNoRows r : Scan r <> inl ErrNoRows.
Proof.
  unfold Scan.
  destruct (name r), (email r), (created_at r), (updated_at r); discriminate.
Qed.

Lemma Scan_ID r u : Scan r = inr u -> ID u = id r.
Proof.
  unfold Scan.
  destruct (name r), (email r), (created_at r), (updated_at r); try discriminate.
  by intros [= <-].
Qed.

End Statements.

(** ** Health *)

(** C6 - [HealthCheck] probes the pool: when the probe succeeds the
    answer is 200 with status "healthy" and the current time; when it
    fails with an error the answer is 503 with status "unhealthy" and
    the text of that error under "error". *)
Theorem HealthCheck_probe (db : DB) (t : Time) :
  (Pg.Ping db = None ->
     Status (HealthCheck db t) = 200 /\
     field (Payload (HealthCheck db t)) "status" = Some (VString "healthy") /\
     field (Payload (HealthCheck db t)) "time" = Some (VTime t)) /\
  (forall err, Pg.Ping db = Some err ->
     Status (HealthCheck db t) = 503 /\
     field (Payload (HealthCheck db t)) "status" = Some (VString "unhealthy") /\
     field (Payload (HealthCheck db t)) "error" = Some (VErrorText err)).
Proof.
  unfold HealthCheck. split.
  - intros ->. done.
  - intros err ->. done.
Qed.

Lemma HealthCheck_probe_witness :
  Status (HealthCheck Sample.db2 7) = 200 /\
  Status (HealthCheck Sample.db_down 7) = 503 /\
  field (Payload (HealthCheck Sample.db_down 7)) "error"
    = Some (VErrorText (ErrConn "connection refused")).
Proof.
  destruct (HealthCheck_probe Sample.db2 7) as [Hup _].
  destruct (HealthCheck_probe Sample.db_down 7) as [_ Hdown].
  destruct (Hup eq_refl) as [H200 _].
  destruct (Hdown (ErrConn "connection refused") eq_refl) as (H503 & _ & Herr).
  exact (conj H200 (conj H503 Herr)).
Defined.

(** ** Get *)

(** C1 - [GetUser]: a path id that [Atoi] rejects gives 400; for an id
    that parses, a lookup that finds no row (the link is up and no row
    of the table has that id) gives 404, a lookup that fails in any
    other way gives 500, and a lookup that yields a row gives 200 with
    that row, which is a row of the table with the requested id. *)
Theorem GetUser_status (db : DB) (c : Context) :
  (Atoi (Param c "id") = None -> Status (GetUser db c) = 400) /\
  (forall i, Atoi (Param c "id") = Some i ->
     (link db = None -> (forall r, r ∈ users db -> id r <> i) ->
        Status (GetUser db c) = 404) /\
     (forall e, ScanRow (select_user db i) = inl e -> e <> ErrNoRows ->
        Status (GetUser db c) = 500) /\
     (forall u, ScanRow (select_user db i) = inr u ->
        GetUser db c = JSON 200 [("user", VUser u)] /\
        ID u = i /\ exists r, r ∈ users db /\ Scan r = inr u)).
Proof.
  unfold GetUser. split.
  - intros ->. done.
  - intros i ->. split; [|split].
    + intros Hl Hnone. by rewrite (select_user_no_rows db i Hl Hnone).
    + intros e -> Hne. by destruct e.
    + intros u Hu. rewrite Hu. split; [done|].
      destruct (select_user db i) as [e|r] eqn:Hq; [done|].
      apply select_user_found in Hq as (_ & Hr & <-).
      split; [by apply Scan_ID | by exists r].
Qed.

Lemma GetUser_status_witness :
  Status (GetUser Sample.db2 (Sample.ctx "abc" Sample.no_body)) = 400 /\
  Status (GetUser Sample.db2 (Sample.ctx "999999" Sample.no_body)) = 404 /\
  Status (GetUser Sample.db_down (Sample.ctx "999999" Sample.no_body)) = 500 /\
  Status (GetUser Sample.db3 (Sample.ctx "3" Sample.no_body)) = 500 /\
  Status (GetUser Sample.db2 (Sample.ctx "2" Sample.no_body)) = 200.
Proof.
  split; [|split; [|split; [|split]]].
  - apply (GetUser_status Sample.db2 (Sample.ctx "abc" Sample.no_body)). reflexivity.
  - apply (proj2 (GetUser_status Sample.db2 (Sample.ctx "999999" Sample.no_body)) 999999 eq_refl).
    + reflexivity.
    + no_such_row.
  - apply (proj2 (GetUser_status Sample.db_down (Sample.ctx "999999" Sample.no_body)) 999999 eq_refl)
      with (e := ErrConn "connection refused"); [reflexivity | discriminate].
  - apply (proj2 (GetUser_status Sample.db3 (Sample.ctx "3" Sample.no_body)) 3 eq_refl)
      with (e := ErrScan "name"); [reflexivity | discriminate].
  - destruct (proj2 (GetUser_status Sample.db2 (Sample.ctx "2" Sample.no_body)) 2 eq_refl)
      as (_ & _ & Hok).
    destruct (Hok _ eq_refl) as [-> _]. reflexivity.
Defined.

(** ** Delete *)

Section Delete.

Implicit Types (db : DB) (c : Context) (i : Z).

Lemma delete_user_rows db i r :
  link db = None ->
  r ∈ users (snd (delete_user db i)) <-> r ∈ users db /\ id r <> i.
Proof.
  intros Hl. unfold delete_user. rewrite Hl. simpl.
  rewrite list_elem_of_filter. tauto.
Qed.

Lemma delete_user_down db i msg :
  link db = Some msg -> delete_user db i = (inl (ErrConn msg), db).
Proof. intros Hl. unfold delete_user. by rewrite Hl. Qed.

End Delete.

(** C4 - [DeleteUser] with a path id that parses: a statement that
    fails gives 500 and leaves the table alone; otherwise the rows
    with that id are removed (and only those) and the answer follows
    the number of rows affected: 404 for none, 200 with the
    confirmation message for exactly one. *)
Theorem DeleteUser_by_rows_affected (db : DB) (c : Context) (i : Z) :
  Atoi (Param c "id") = Some i ->
  (forall msg, link db = Some msg ->
     Status (fst (DeleteUser db c)) = 500 /\ snd (DeleteUser db c) = db) /\
  (link db = None ->
     let affected := length (filter (fun r => id r = i) (users db)) in
     (forall r, r ∈ users (snd (DeleteUser db c)) <-> r ∈ users db /\ id r <> i) /\
     (affected = 0%nat -> Status (fst (DeleteUser db c)) = 404) /\
     (affected = 1%nat ->
        fst (DeleteUser db c) = JSON 200 [("message", VString "User deleted successfully")])).
Proof.
  intros Hid. unfold DeleteUser. rewrite Hid. split.
  - intros msg Hl. by rewrite (delete_user_down db i msg Hl).
  - intros Hl. split; [|split].
    + intros r. rewrite <- (delete_user_rows db i r Hl).
      destruct (delete_user db i) as [[e|n] db']; simpl; [done|].
      by destruct (n =? 0).
    + intros H0. unfold delete_user. rewrite Hl, H0. done.
    + intros H1. unfold delete_user. rewrite Hl, H1. done.
Qed.

Lemma DeleteUser_by_rows_affected_witness :
  Status (fst (DeleteUser Sample.db_down (Sample.ctx "2" Sample.no_body))) = 500 /\
  Status (fst (DeleteUser Sample.db2 (Sample.ctx "7" Sample.no_body))) = 404 /\
  fst (DeleteUser Sample.db2 (Sample.ctx "2" Sample.no_body))
    = JSON 200 [("message", VString "User deleted successfully")].
Proof.
  split; [|split].
  - apply (proj1 (DeleteUser_by_rows_affected Sample.db_down (Sample.ctx "2" Sample.no_body) 2 eq_refl)
             "connection refused" eq_refl).
  - apply (proj2 (DeleteUser_by_rows_affected Sample.db2 (Sample.ctx "7" Sample.no_body) 7 eq_refl)
             eq_refl). reflexivity.
  - apply (proj2 (DeleteUser_by_rows_affected Sample.db2 (Sample.ctx "2" Sample.no_body) 2 eq_refl)
             eq_refl). reflexivity.
Defined.

(** ** Binding the request body *)

Section Bind.

Variable is_email : string -> bool.

Implicit Types (c : Context) (u : UserInput) (j : json).

(** A key that does not name the field leaves the field alone. *)
Lemma decode_field_other_name saved u k v :
  fold_key k <> "name" ->
  in_Name (snd (decode_field (saved, u) (k, v))) = in_Name u.
Proof.
  intros Hk. unfold decode_field.
  destruct (String.eqb_spec (fold_key k) "name") as [Heq|_]; [done|].
  destruct (String.eqb (fold_key k) "email"); [|done].
  by destruct v.
Qed.

Lemma decode_fields_no_name fields saved u :
  (forall k v, (k, v) ∈ fields -> fold_key k <> "name") ->
  in_Name (snd (fold_left decode_field fields (saved, u))) = in_Name u.
Proof.
  revert saved u. induction fields as [|[k v] fields IH]; intros saved u Hno; [done|].
  cbn [fold_left]. destruct (decode_field (saved, u) (k, v)) as [saved' u'] eqn:Hd.
  rewrite IH.
  - change u' with (snd (saved', u')). rewrite <- Hd.
    apply decode_field_other_name. apply (Hno k v). apply list_elem_of_here.
  - intros k' v' Hin. apply (Hno k' v'). by apply list_elem_of_further.
Qed.

(** An object without a [name] key decodes, if at all, to an empty
    [Name]. *)
Lemma Decode_missing_name fields u :
  (forall k v, (k, v) ∈ fields -> fold_key k <> "name") ->
  Decode (JObject fields) = inr u -> in_Name u = "".
Proof.
  intros Hno. unfold Decode.
  pose proof (decode_fields_no_name fields None
                {| in_Name := ""; in_Email := "" |} Hno) as Hn.
  destruct (fold_left decode_field fields _) as [[e|] u']; [done|].
  by intros [= <-].
Qed.

Lemma validate_empty_name u : in_Name u = "" -> validate is_email u <> [].
Proof. intros Hn. unfold validate. rewrite Hn. done. Qed.

Lemma validate_bad_email u : is_email (in_Email u) = false -> validate is_email u <> [].
Proof.
  intros He. unfold validate. rewrite He.
  destruct (String.eqb (in_Name u) ""); [done|].
  by destruct (String.eqb (in_Email u) "").
Qed.

(** What a body that binds looks like. *)
Lemma ShouldBindJSON_ok c u :
  ShouldBindJSON is_email c = inr u <->
  exists j, Body c = Decoded j /\ Decode j = inr u /\
            in_Name u <> "" /\ in_Email u <> "" /\ is_email (in_Email u) = true.
Proof.
  unfold ShouldBindJSON. split.
  - destruct (Body c) as [msg|j]; [done|].
    destruct (Decode j) as [e|u'] eqn:Hd; [done|].
    destruct (validate is_email u') as [|fe fes] eqn:Hv; [|done].
    intros [= <-]. exists j. split; [done|]. split; [done|].
    unfold validate in Hv.
    destruct (String.eqb_spec (in_Name u') ""); [done|].
    destruct (String.eqb_spec (in_Email u') ""); [done|].
    by destruct (is_email (in_Email u')).
  - intros (j & -> & -> & Hn & He & Hm). unfold validate.
    destruct (String.eqb_spec (in_Name u) ""); [done|].
    destruct (String.eqb_spec (in_Email u) ""); [done|].
    by rewrite Hm.
Qed.

Lemma ShouldBindJSON_bad c :
  bad_body is_email (Body c) -> exists err, ShouldBindJSON is_email c = inl err.
Proof.
  unfold ShouldBindJSON. intros Hbad.
  destruct Hbad as [msg | j e Hd | fields Hno | j u Hd Hn | j u Hd He].
  - by eexists.
  - rewrite Hd. by eexists.
  - destruct (Decode (JObject fields)) as [e|u] eqn:Hd; [by eexists|].
    pose proof (validate_empty_name u (Decode_missing_name fields u Hno Hd)).
    destruct (validate is_email u); [done | by eexists].
  - rewrite Hd. pose proof (validate_empty_name u Hn).
    destruct (validate is_email u); [done | by eexists].
  - rewrite Hd. pose proof (validate_bad_email u He).
    destruct (validate is_email u); [done | by eexists].
Qed.

End Bind.

(** ** Create *)

Section Insert.

Implicit Types (db : DB) (n e : string).

Lemma insert_user_row db n e r :
  fst (insert_user db n e) = inr r ->
  r = new_row db n e /\
  link db = None /\
  in_int (users_id_seq db) = true /\
  (users_id_seq db ∉ map id (users db)) /\
  snd (insert_user db n e) = set_users (advance_seq db) (users db ++ [r]).
Proof.
  unfold insert_user. destruct (link db); [done|].
  destruct (in_int (users_id_seq db)); [|done]. simpl.
  case_bool_decide; [done|]. simpl. by intros [= <-].
Qed.

Lemma insert_user_ok db n e :
  link db = None ->
  in_int (users_id_seq db) = true ->
  users_id_seq db ∉ map id (users db) ->
  insert_user db n e
    = (inr (new_row db n e), set_users (advance_seq db) (users db ++ [new_row db n e])).
Proof.
  intros Hl Hr Hfresh. unfold insert_user. rewrite Hl, Hr. simpl.
  by rewrite bool_decide_eq_false_2.
Qed.

(** A failed insert stores nothing. *)
Lemma insert_user_error db n e err :
  fst (insert_user db n e) = inl err -> users (snd (insert_user db n e)) = users db.
Proof.
  unfold insert_user. destruct (link db); [done|].
  destruct (in_int (users_id_seq db)); [|done]. simpl.
  by case_bool_decide.
Qed.

Lemma Scan_new_row db n e :
  Scan (new_row db n e)
    = inr {| ID := users_id_seq db; Name := n; Email := e;
             CreatedAt := now db; UpdatedAt := now db |}.
Proof. reflexivity. Qed.

End Insert.

(** C2 - [CreateUser]: a body that is malformed, lacks [name], has an
    empty [name] or an email that fails the format rule gives 400 with
    the binding error itself under "error", and the database is left
    as it was. A body that binds gives 201 with the row the insert
    stored (the id from the sequence, the name and email of the body,
    both timestamps the database time) when the insert succeeds, and
    500 when it fails. *)
Theorem CreateUser_validates (is_email : string -> bool) (db : DB) (c : Context) :
  (bad_body is_email (Body c) ->
     exists err, ShouldBindJSON is_email c = inl err /\
       CreateUser is_email db c = (JSON 400 [("error", VErrorText err)], db)) /\
  (forall u, ShouldBindJSON is_email c = inr u ->
     (forall r, fst (insert_user db (in_Name u) (in_Email u)) = inr r ->
        let user := {| ID := users_id_seq db; Name := in_Name u; Email := in_Email u;
                       CreatedAt := now db; UpdatedAt := now db |} in
        Scan r = inr user /\
        fst (CreateUser is_email db c)
          = JSON 201 [("message", VString "User created successfully"); ("user", VUser user)] /\
        users (snd (CreateUser is_email db c)) = (users db ++ [r])%list) /\
     (forall e, fst (insert_user db (in_Name u) (in_Email u)) = inl e ->
        Status (fst (CreateUser is_email db c)) = 500 /\
        users (snd (CreateUser is_email db c)) = users db)).
Proof.
  split.
  - intros Hbad. destruct (ShouldBindJSON_bad is_email c Hbad) as [err Herr].
    exists err. split; [done|]. unfold CreateUser. by rewrite Herr.
  - intros u Hu. unfold CreateUser. rewrite Hu. split.
    + intros r Hr. destruct (insert_user_row _ _ _ _ Hr) as (-> & _ & _ & _ & Hdb).
      destruct (insert_user db (in_Name u) (in_Email u)) as [q db'] eqn:Hq.
      simpl in Hr, Hdb. subst q db'. cbn. done.
    + intros e He. pose proof (insert_user_error _ _ _ _ He) as Hsame.
      destruct (insert_user db (in_Name u) (in_Email u)) as [q db'].
      simpl in He, Hsame. subst q. done.
Qed.

Lemma CreateUser_validates_witness :
  fst (CreateUser Sample.has_at Sample.db2 (Sample.ctx "" Sample.no_body))
    = JSON 400 [("error", VErrorText (ErrJSON "EOF"))] /\
  snd (CreateUser Sample.has_at Sample.db2
         (Sample.ctx "" (Sample.body_of [("email", JString "ada@example.com")]))) = Sample.db2 /\
  Status (fst (CreateUser Sample.has_at Sample.db2 (Sample.ctx "" Sample.grace_body))) = 201 /\
  Status (fst (CreateUser Sample.has_at Sample.db_down (Sample.ctx "" Sample.grace_body))) = 500.
Proof.
  split; [|split; [|split]].
  - destruct (proj1 (CreateUser_validates Sample.has_at Sample.db2
                       (Sample.ctx "" Sample.no_body)) (bad_syntax _ "EOF"))
      as (err & Herr & ->).
    vm_compute in Herr. by injection Herr as <-.
  - destruct (proj1 (CreateUser_validates Sample.has_at Sample.db2
                       (Sample.ctx "" (Sample.body_of [("email", JString "ada@example.com")]))))
      as (err & _ & ->); [|done].
    apply bad_missing_name. intros k v Hin.
    apply list_elem_of_singleton in Hin as [= -> ->]. by vm_compute.
  - destruct (proj2 (CreateUser_validates Sample.has_at Sample.db2
                       (Sample.ctx "" Sample.grace_body)) _ eq_refl) as [Hok _].
    destruct (Hok _ eq_refl) as (_ & -> & _). reflexivity.
  - destruct (proj2 (CreateUser_validates Sample.has_at Sample.db_down
                       (Sample.ctx "" Sample.grace_body)) _ eq_refl) as [_ Hfail].
    apply (Hfail (ErrConn "connection refused") eq_refl).
Defined.

(** ** List *)

(** C9 - with an empty table and the link up, [GetUsers] answers 200
    with count 0 and a nil slice under "users", which the encoder
    writes as [null], not as an empty array. *)
Theorem GetUsers_empty_table
    (format_time : Time -> string) (error_text : error -> string) (db : DB) :
  link db = None ->
  users db = [] ->
  Status (GetUsers db) = 200 /\
  field (Payload (GetUsers db)) "count" = Some (VInt 0) /\
  field (Payload (GetUsers db)) "users" = Some (VUsers nil_slice) /\
  Render.marshal format_time error_text (Payload (GetUsers db))
    = JObject [("count", JNumber 0); ("users", JNull)].
Proof.
  intros Hl Hu. unfold GetUsers, select_users. rewrite Hl, Hu. cbn.
  repeat split; reflexivity.
Qed.

Lemma GetUsers_empty_table_witness :
  Render.marshal (fun _ => "") (fun _ => "") (Payload (GetUsers Sample.empty_db))
    = JObject [("count", JNumber 0); ("users", JNull)].
Proof.
  apply (GetUsers_empty_table (fun _ => "") (fun _ => "") Sample.empty_db eq_refl eq_refl).
Defined.

(** A slice that is allocated but empty is written as an array. *)
Lemma marshal_empty_slice format_time error_text :
  Render.marshal_value format_time error_text (VUsers (mk_slice [])) = JArray [].
Proof. reflexivity. Qed.

(** ** The process *)

(** Unfolds a run of [main] down to the outcomes of its surroundings. *)
Ltac run_main :=
  unfold Proc.call, Main.main, Main.main_returning, Main.initDB, Main.SetupRoutes,
    Main.ListenAndServe, Proc.log_Fatal, Proc.os_Exit, Proc.panic, Proc.bind,
    Proc.emit, Proc.defer, Proc.ret.

(** Refutes the membership [H] of an event in a literal trace that
    does not hold it. *)
Ltac not_in_events H :=
  rewrite ?elem_of_cons, ?elem_of_nil in H; intuition discriminate.

Section Process.
Import Proc Main.

Implicit Types (env : Env).

(** [main] ends in [log.Fatal], in a panic, or keeps serving; it never
    returns. *)
Lemma main_never_returns env a : fst (call (main env)) <> Return a.
Proof.
  run_main. destruct (initDB_err env); [done|]. cbn.
  destruct (templates_err env); [done|]. cbn.
  destruct (listen_err env); done.
Qed.

(** Had [main] returned after the server stopped, the deferred
    [db.Close()] would have run last. *)
Lemma main_returning_closes_pool env msg :
  initDB_err env = None ->
  templates_err env = None ->
  listen_err env = Some msg ->
  fst (call (main_returning env)) = Return tt /\
  last (snd (call (main_returning env))) = Some EvPoolClose.
Proof.
  intros Hdb Ht Hl. run_main. rewrite Hdb, Ht, Hl. cbn. done.
Qed.

(** When the templates do not load, [routes.SetupRoutes] panics, the
    deferred [db.Close()] runs and the process ends with status 2,
    before the server has listened. *)
Lemma main_startup_panic env msg :
  initDB_err env = None ->
  templates_err env = Some msg ->
  call (main env) = (Panic msg, [EvPoolClose]) /\
  exit_status (fst (call (main env))) = Some 2.
Proof.
  intros Hdb Ht. run_main. rewrite Hdb, Ht. cbn. done.
Qed.

End Process.

(** C8 - the pool's [Close] is called in one kind of run only: the
    start-up in which [routes.SetupRoutes] panics because the
    templates do not load. In no run in which the server has got as
    far as listening is [Close] called: from there the ways out of
    [main] are [log.Fatal], which exits without running the deferred
    [db.Close()], and the kill of the serving process. *)
Theorem main_closes_pool_only_on_startup_panic (env : Main.Env) :
  (Proc.EvPoolClose ∈ snd (Proc.call (Main.main env)) <->
     Main.initDB_err env = None /\ exists msg, Main.templates_err env = Some msg) /\
  (forall addr, Proc.EvListen addr ∈ snd (Proc.call (Main.main env)) ->
     Proc.EvPoolClose ∉ snd (Proc.call (Main.main env))).
Proof.
  run_main.
  destruct (Main.initDB_err env) as [dberr|]; cbn.
  - split; [split|].
    + intros Hin. not_in_events Hin.
    + intros [Hdb _]. discriminate Hdb.
    + intros addr Hin. not_in_events Hin.
  - destruct (Main.templates_err env) as [terr|]; cbn.
    + split; [split|].
      * intros _. split; [done | by exists terr].
      * intros _. apply list_elem_of_here.
      * intros addr Hin. not_in_events Hin.
    + destruct (Main.listen_err env) as [lerr|]; cbn.
      * split; [split|].
        -- intros Hin. not_in_events Hin.
        -- intros [_ [msg Hmsg]]. discriminate Hmsg.
        -- intros addr _ Hin. not_in_events Hin.
      * split; [split|].
        -- intros Hin. not_in_events Hin.
        -- intros [_ [msg Hmsg]]. discriminate Hmsg.
        -- intros addr _ Hin. not_in_events Hin.
Qed.

Lemma main_closes_pool_only_on_startup_panic_witness :
  let env := {| Main.getenv := fun _ => "";
                Main.initDB_err := None;
                Main.templates_err := None;
                Main.listen_err := Some "listen tcp :8080: bind: address already in use" |} in
  Proc.EvPoolClose ∉ snd (Proc.call (Main.main env)).
Proof.
  intros env.
  apply (proj2 (main_closes_pool_only_on_startup_panic env) ":8080").
  subst env. cbn. rewrite !elem_of_cons. tauto.
Defined.

(** ** Listing in order *)

Section Listing.

Implicit Types (db : DB) (r : Row) (u : User) (rows : list Row) (us : list User).






(** Rows that all scan have a list of users to scan into. *)
Lemma scan_all rows :
  Forall (fun r => exists u, Scan r = inr u) rows ->
  exists us, Forall2 (fun r u => Scan r = inr u) rows us.
Proof.
  induction 1 as [|r rows [u Hu] _ [us IH]].
  - exists []. constructor.
  - exists (u :: us). by constructor.
Qed.

(** The loop appends every scanned user to the slice, in order. *)
Lemma scan_loop_ok rows us acc :
  Forall2 (fun r u => Scan r = inr u) rows us ->
  scan_loop rows acc = inr (fold_left append us acc).
Proof.
  intros H. revert acc. induction H as [|r u rows us Hru _ IH]; intros acc; [done|].
  simpl. rewrite Hru. apply IH.
Qed.


Lemma elems_append {A} (s : slice A) (x : A) : elems (append s x) = (elems s ++ [x])%list.
Proof. by destruct s. Qed.

Lemma elems_fold_append {A} (xs : list A) (s : slice A) :
  elems (fold_left append xs s) = (elems s ++ xs)%list.
Proof.
  revert s. induction xs as [|x xs IH]; intros s; simpl.
  - by rewrite app_nil_r.
  - by rewrite IH, elems_append, <- app_assoc.
Qed.

End Listing.



(** ** Printing and parsing ids *)

Section Decimal.

Implicit Types (s t u : string) (n a d : Z).

Lemma digit_val_digit_char d : 0 <= d <= 9 -> digit_val (digit_char d) = Some d.
Proof.
  intros Hd.
  assert (d = 0 \/ d = 1 \/ d = 2 \/ d = 3 \/ d = 4 \/
          d = 5 \/ d = 6 \/ d = 7 \/ d = 8 \/ d = 9) as Hcases by lia.
  repeat (destruct Hcases as [-> | Hcases]; [reflexivity|]). by subst.
Qed.

Lemma string_app_assoc s t u : (s +:+ t) +:+ u = s +:+ (t +:+ u).
Proof.
  induction s as [|c s IH]; [done|].
  change (String c ((s +:+ t) +:+ u) = String c (s +:+ (t +:+ u))). by rewrite IH.
Qed.

Lemma parse_digits_app s t a :
  parse_digits a (s +:+ t) = parse_digits a s ≫= fun a' => parse_digits a' t.
Proof.
  revert a. induction s as [|c s IH]; intros a; [done|].
  simpl. destruct (digit_val c); [apply IH | done].
Qed.

Lemma utoa_acc fuel n acc : utoa fuel n acc = utoa fuel n "" +:+ acc.
Proof.
  revert n acc. induction fuel as [|fuel IH]; intros n acc; [done|].
  simpl. destruct (n <? 10); [done|].
  rewrite (IH (n / 10) (String _ acc)), (IH (n / 10) (String _ "")).
  by rewrite string_app_assoc.
Qed.

Lemma utoa_nonempty fuel n : utoa (S fuel) n "" <> "".
Proof.
  simpl. destruct (n <? 10); [done|].
  rewrite utoa_acc. by destruct (utoa fuel (n / 10) "").
Qed.

Lemma parse_digits_utoa fuel n :
  0 <= n < 10 ^ Z.of_nat fuel -> parse_digits 0 (utoa fuel n "") = Some n.
Proof.
  revert n. induction fuel as [|fuel IH]; intros n Hn.
  - simpl in *. f_equal. lia.
  - cbn [utoa]. destruct (Z.ltb_spec n 10) as [Hlt|Hge].
    + simpl. rewrite digit_val_digit_char by (rewrite Z.mod_small; lia).
      f_equal. rewrite Z.mod_small; lia.
    + rewrite utoa_acc, parse_digits_app, IH.
      * simpl. rewrite digit_val_digit_char by (pose proof (Z.mod_pos_bound n 10); lia).
        f_equal. pose proof (Z.div_mod n 10). lia.
      * rewrite Nat2Z.inj_succ, Z.pow_succ_r in Hn by lia.
        split; [apply Z.div_pos; lia | apply Z.div_lt_upper_bound; lia].
Qed.

(** A numeral that parses as digits starts with neither sign. *)
Lemma parse_digits_no_sign s n :
  parse_digits 0 s = Some n ->
  match s with
  | String "-" _ | String "+" _ => False
  | _ => True
  end.
Proof.
  destruct s as [|c s]; [done|]. simpl.
  destruct (digit_val c) eqn:Hc; [|done]. intros _.
  destruct c as [[] [] [] [] [] [] [] []]; try done.
Qed.

Lemma parse_uint_utoa fuel n :
  0 <= n < 10 ^ Z.of_nat (S fuel) -> parse_uint (utoa (S fuel) n "") = Some n.
Proof.
  intros Hn. pose proof (utoa_nonempty fuel n) as Hne.
  pose proof (parse_digits_utoa (S fuel) n Hn) as Hp.
  unfold parse_uint. by destruct (utoa (S fuel) n "").
Qed.

(** Every [int] comes back from its decimal text. *)
Lemma Atoi_Itoa z : in_int z = true -> Atoi (Itoa z) = Some z.
Proof.
  intros Hz. assert (min_int <= z <= max_int) as Hr.
  { unfold in_int in Hz. apply andb_prop in Hz as [?%Z.leb_le ?%Z.leb_le]. lia. }
  unfold min_int, max_int in Hr. unfold Itoa, Atoi.
  destruct (Z.ltb_spec z 0) as [Hneg|Hpos].
  - rewrite (parse_uint_utoa 19 (- z)) by (change (10 ^ Z.of_nat 20) with (10 ^ 20); lia).
    simpl. by rewrite Z.opp_involutive, Hz.
  - pose proof (parse_uint_utoa 19 z) as Hp.
    pose proof (parse_digits_utoa 20 z) as Hd.
    pose proof (parse_digits_no_sign (utoa 20 z "")) z as Hs.
    destruct (utoa 20 z "") as [|c s] eqn:Hu.
    + by destruct (utoa_nonempty 19 z).
    + assert (parse_uint (String c s) = Some z) as Hq
        by (apply Hp; change (10 ^ Z.of_nat 20) with (10 ^ 20); lia).
      assert (match c with "-"%char | "+"%char => False | _ => True end) as Hc.
      { specialize (Hs (Hd ltac:(change (10 ^ Z.of_nat 20) with (10 ^ 20); lia))).
        destruct c as [[] [] [] [] [] [] [] []]; done. }
      destruct c as [[] [] [] [] [] [] [] []]; try done; by rewrite Hq, Hz.
Qed.

Example Atoi_negative : Atoi "-5" = Some (-5).
Proof. reflexivity. Qed.

Example Atoi_plus_sign : Atoi "+42" = Some 42.
Proof. reflexivity. Qed.

Example Atoi_not_a_number : Atoi "abc" = None.
Proof. reflexivity. Qed.

Example Atoi_empty : Atoi "" = None.
Proof. reflexivity. Qed.

Example Atoi_sign_only : Atoi "+" = None.
Proof. reflexivity. Qed.

Example Atoi_underscore : Atoi "1_000" = None.
Proof. reflexivity. Qed.

Example Atoi_out_of_range : Atoi "9223372036854775808" = None.
Proof. reflexivity. Qed.

Example Atoi_min_int : Atoi "-9223372036854775808" = Some min_int.
Proof. reflexivity. Qed.

Example Itoa_min_int : Itoa min_int = "-9223372036854775808".
Proof. reflexivity. Qed.

Example Itoa_zero : Itoa 0 = "0".
Proof. reflexivity. Qed.

End Decimal.

(** ** Update *)

Section Update.

Implicit Types (db : DB) (r : Row) (n e : string) (i : Z).

Lemma update_user_down db n e i msg :
  link db = Some msg -> update_user db n e i = (inl (ErrConn msg), db).
Proof. intros Hl. unfold update_user. by rewrite Hl. Qed.

Lemma update_user_no_rows db n e i :
  link db = None ->
  (forall r, r ∈ users db -> id r <> i) ->
  update_user db n e i = (inl ErrNoRows, db).
Proof.
  intros Hl Hnone. unfold update_user. rewrite Hl.
  destruct (filter (fun r => id r = i) (users db)) as [|r rest] eqn:Hf; [done|].
  assert (r ∈ filter (fun r => id r = i) (users db)) as Hin
    by (rewrite Hf; apply list_elem_of_here).
  apply list_elem_of_filter in Hin as [Hid Hr].
  by destruct (Hnone r Hr).
Qed.

(** With a row to update, the statement rewrites the table in place
    and returns the first rewritten row. *)
Lemma update_user_rows db n e i r :
  link db = None ->
  r ∈ users db -> id r = i ->
  exists r0, r0 ∈ users db /\ id r0 = i /\
    update_user db n e i
      = (inr (set_row n e (now db) r0),
         set_users db (map (fun r => if decide (id r = i)
                                     then set_row n e (now db) r else r) (users db))).
Proof.
  intros Hl Hr Hid. unfold update_user. rewrite Hl.
  destruct (filter (fun r => id r = i) (users db)) as [|r0 rest] eqn:Hf.
  - by destruct (filter_nil_not_elem_of _ _ r Hf Hid).
  - assert (r0 ∈ filter (fun r => id r = i) (users db)) as Hin
      by (rewrite Hf; apply list_elem_of_here).
    apply list_elem_of_filter in Hin as [Hid0 Hr0]. by exists r0.
Qed.

(** What the rewriting does to each row, position by position. *)
Lemma update_rows_pointwise n e t i (rows : list Row) :
  Forall2 (fun r r' =>
             id r' = id r /\ created_at r' = created_at r /\
             (id r <> i -> r' = r) /\
             (id r = i -> name r' = Some n /\ email r' = Some e /\ updated_at r' = Some t))
          rows
          (map (fun r => if decide (id r = i) then set_row n e t r else r) rows).
Proof.
  induction rows as [|r rows IH]; [constructor|].
  cbn [map]. constructor; [|exact IH].
  destruct (decide (id r = i)) as [Heq|Hne]; simpl; tauto.
Qed.

Lemma Scan_set_row n e t r u :
  Scan (set_row n e t r) = inr u ->
  ID u = id r /\ Name u = n /\ Email u = e /\ UpdatedAt u = t /\
  created_at r = Some (CreatedAt u).
Proof.
  unfold Scan, set_row. simpl. destruct (created_at r); [|done].
  by intros [= <-].
Qed.

(** The handler keeps the database the statement leaves and answers
    by the outcome of the scan. *)
Lemma UpdateUser_db is_email db (c : Context) i (b : UserInput) :
  Atoi (Param c "id") = Some i ->
  ShouldBindJSON is_email c = inr b ->
  snd (UpdateUser is_email db c) = snd (update_user db (in_Name b) (in_Email b) i).
Proof.
  intros Hi Hb. unfold UpdateUser. rewrite Hi, Hb.
  destruct (update_user db (in_Name b) (in_Email b) i) as [q db'].
  destruct (ScanRow q) as [err|u]; [by destruct (is_ErrNoRows err)|done].
Qed.

Lemma UpdateUser_resp is_email db (c : Context) i (b : UserInput) :
  Atoi (Param c "id") = Some i ->
  ShouldBindJSON is_email c = inr b ->
  fst (UpdateUser is_email db c)
    = match ScanRow (fst (update_user db (in_Name b) (in_Email b) i)) with
      | inl err =>
          if is_ErrNoRows err
          then JSON 404 [("error", VString "User not found")]
          else JSON 500 [("error", VString "Failed to update user")]
      | inr u =>
          JSON 200 [("message", VString "User updated successfully"); ("user", VUser u)]
      end.
Proof.
  intros Hi Hb. unfold UpdateUser. rewrite Hi, Hb.
  destruct (update_user db (in_Name b) (in_Email b) i) as [q db'].
  cbn [fst]. destruct (ScanRow q) as [err|u]; [by destruct (is_ErrNoRows err)|done].
Qed.

End Update.

(** C3 (as amended) - [UpdateUser]: a path id that does not parse, or
    a body that does not bind, gives 400 and changes nothing. With a
    parsed id and a bound body: a statement that cannot run gives 500,
    no row with the id gives 404, both without change; otherwise every
    row of the table stays in its place, keeps its [id] and
    [created_at], is unchanged when its id is another one, and has
    [name] and [email] of the body and [updated_at] equal to the
    database time when its id is the requested one - so [updated_at]
    grows strictly exactly when the database time is past the stored
    value. The answer is then 200 with the updated row, or 500 when
    that row cannot be scanned. *)
Theorem UpdateUser_overwrites (is_email : string -> bool) (db : DB) (c : Context) :
  (Atoi (Param c "id") = None ->
     UpdateUser is_email db c = (JSON 400 [("error", VString "Invalid user ID")], db)) /\
  (forall i, Atoi (Param c "id") = Some i ->
     (bad_body is_email (Body c) ->
        exists err, UpdateUser is_email db c = (JSON 400 [("error", VErrorText err)], db)) /\
     (forall b, ShouldBindJSON is_email c = inr b ->
        (forall msg, link db = Some msg ->
           Status (fst (UpdateUser is_email db c)) = 500 /\
           snd (UpdateUser is_email db c) = db) /\
        (link db = None -> (forall r, r ∈ users db -> id r <> i) ->
           Status (fst (UpdateUser is_email db c)) = 404 /\
           snd (UpdateUser is_email db c) = db) /\
        (link db = None -> forall r, r ∈ users db -> id r = i ->
           Forall2 (fun r r' =>
                      id r' = id r /\ created_at r' = created_at r /\
                      (id r <> i -> r' = r) /\
                      (id r = i ->
                         name r' = Some (in_Name b) /\ email r' = Some (in_Email b) /\
                         updated_at r' = Some (now db) /\
                         (forall t, updated_at r = Some t -> t < now db ->
                            exists t', updated_at r' = Some t' /\ t < t')))
                   (users db) (users (snd (UpdateUser is_email db c))) /\
           (forall u, ScanRow (fst (update_user db (in_Name b) (in_Email b) i)) = inr u ->
              fst (UpdateUser is_email db c)
                = JSON 200 [("message", VString "User updated successfully"); ("user", VUser u)] /\
              ID u = i /\ Name u = in_Name b /\ Email u = in_Email b /\
              UpdatedAt u = now db) /\
           (forall err, ScanRow (fst (update_user db (in_Name b) (in_Email b) i)) = inl err ->
              Status (fst (UpdateUser is_email db c)) = 500)))).
Proof.
  split.
  - unfold UpdateUser. intros ->. done.
  - intros i Hi. split.
    + unfold UpdateUser. rewrite Hi. intros Hbad.
      destruct (ShouldBindJSON_bad is_email c Hbad) as [err ->]. by exists err.
    + intros b Hb.
      rewrite (UpdateUser_db is_email db c i b Hi Hb),
              (UpdateUser_resp is_email db c i b Hi Hb).
      split; [|split].
      * intros msg Hl. by rewrite (update_user_down _ _ _ _ msg Hl).
      * intros Hl Hnone. by rewrite (update_user_no_rows _ _ _ _ Hl Hnone).
      * intros Hl r Hr Hid.
        destruct (update_user_rows db (in_Name b) (in_Email b) i r Hl Hr Hid)
          as (r0 & Hr0 & Hid0 & ->).
        cbn [fst snd ScanRow set_users users]. split; [|split].
        -- eapply Forall2_impl; [apply update_rows_pointwise|].
           intros r1 r1' (H1 & H2 & H3 & H4). repeat split; try tauto.
           intros t Ht Hlt. exists (now db). split; [tauto | done].
        -- intros u Hu. rewrite Hu. split; [done|].
           apply Scan_set_row in Hu as (-> & -> & -> & -> & _). done.
        -- intros err Herr. rewrite Herr.
           pose proof (Scan_not_ErrNoRows (set_row (in_Name b) (in_Email b) (now db) r0)) as Hne.
           destruct err; done.
Qed.

Lemma UpdateUser_overwrites_witness :
  Status (fst (UpdateUser Sample.has_at Sample.db2 (Sample.ctx "abc" Sample.grace_body))) = 400 /\
  Status (fst (UpdateUser Sample.has_at Sample.db2 (Sample.ctx "2" Sample.no_body))) = 400 /\
  Status (fst (UpdateUser Sample.has_at Sample.db_down (Sample.ctx "2" Sample.grace_body))) = 500 /\
  Status (fst (UpdateUser Sample.has_at Sample.db2 (Sample.ctx "7" Sample.grace_body))) = 404 /\
  Status (fst (UpdateUser Sample.has_at Sample.db3 (Sample.ctx "2" Sample.grace_body))) = 200 /\
  Status (fst (UpdateUser Sample.has_at Sample.db3 (Sample.ctx "3" Sample.grace_body))) = 200.
Proof.
  pose (b := {| in_Name := "Grace"; in_Email := "grace@example.com" |}).
  split; [|split; [|split; [|split; [|split]]]].
  - rewrite (proj1 (UpdateUser_overwrites Sample.has_at Sample.db2
                      (Sample.ctx "abc" Sample.grace_body)) eq_refl).
    reflexivity.
  - destruct (proj1 (proj2 (UpdateUser_overwrites Sample.has_at Sample.db2
                              (Sample.ctx "2" Sample.no_body)) 2 eq_refl)
                (bad_syntax _ "EOF")) as [err ->].
    reflexivity.
  - apply (proj1 (proj2 (proj2 (UpdateUser_overwrites Sample.has_at Sample.db_down
                                  (Sample.ctx "2" Sample.grace_body)) 2 eq_refl) b eq_refl)
             "connection refused" eq_refl).
  - apply (proj1 (proj2 (proj2 (proj2 (UpdateUser_overwrites Sample.has_at Sample.db2
                                  (Sample.ctx "7" Sample.grace_body)) 7 eq_refl) b eq_refl))
             eq_refl).
    no_such_row.
  - destruct (proj2 (proj2 (proj2 (proj2 (UpdateUser_overwrites Sample.has_at Sample.db3
                                  (Sample.ctx "2" Sample.grace_body)) 2 eq_refl) b eq_refl))
                eq_refl Sample.bob) as (_ & Hok & _).
    + unfold Sample.db3. cbn. rewrite !elem_of_cons. tauto.
    + reflexivity.
    + destruct (Hok _ eq_refl) as [-> _]. reflexivity.
  - destruct (proj2 (proj2 (proj2 (proj2 (UpdateUser_overwrites Sample.has_at Sample.db3
                                  (Sample.ctx "3" Sample.grace_body)) 3 eq_refl) b eq_refl))
                eq_refl Sample.anon) as (_ & Hok & _).
    + unfold Sample.db3. cbn. rewrite !elem_of_cons. tauto.
    + reflexivity.
    + destruct (Hok _ eq_refl) as [-> _]. reflexivity.
Defined.

(** An update that runs while the database time equals the stored
    [updated_at] leaves that value as it is: [updated_at] does not
    grow strictly on every update. *)
Lemma UpdateUser_updated_at_not_strict :
  ~ (forall (is_email : string -> bool) (db : DB) (c : Context) (i : Z) (b : UserInput)
            (r r' : Row) (t t' : Time),
       Atoi (Param c "id") = Some i ->
       ShouldBindJSON is_email c = inr b ->
       Status (fst (UpdateUser is_email db c)) = 200 ->
       r ∈ users db -> id r = i -> updated_at r = Some t ->
       r' ∈ users (snd (UpdateUser is_email db c)) -> id r' = i -> updated_at r' = Some t' ->
       t < t').
Proof.
  intros Hclaim.
  specialize (Hclaim Sample.has_at Sample.db2 (Sample.ctx "2" Sample.grace_body) 2
                {| in_Name := "Grace"; in_Email := "grace@example.com" |}
                Sample.bob
                {| id := 2; name := Some "Grace"; email := Some "grace@example.com";
                   created_at := Some 250; updated_at := Some 300 |}
                300 300 eq_refl eq_refl eq_refl).
  assert (300 < 300) as Habs; [|lia].
  apply Hclaim; try reflexivity.
  - unfold Sample.db2. cbn. rewrite !elem_of_cons. tauto.
  - assert (users (snd (UpdateUser Sample.has_at Sample.db2
                          (Sample.ctx "2" Sample.grace_body)))
            = [Sample.ada;
               {| id := 2; name := Some "Grace"; email := Some "grace@example.com";
                  created_at := Some 250; updated_at := Some 300 |}]) as -> by reflexivity.
    rewrite !elem_of_cons. tauto.
Qed.

(** ** Create, then get *)

Section RoundTrip.

Implicit Types (db : DB) (r : Row) (i : Z).

Lemma filter_fresh_id i (rows : list Row) :
  i ∉ map id rows -> filter (fun r => id r = i) rows = [].
Proof.
  induction rows as [|r rows IH]; [done|]. cbn [map].
  intros [Hne Hrest]%not_elem_of_cons.
  rewrite filter_cons_False by congruence. by apply IH.
Qed.

(** The row an insert has just stored is the one a lookup by its id
    finds. *)
Lemma select_inserted db n e r :
  fst (insert_user db n e) = inr r ->
  select_user (snd (insert_user db n e)) (id r) = inr r.
Proof.
  intros Hr. destruct (insert_user_row _ _ _ _ Hr) as (-> & Hl & _ & Hfresh & ->).
  unfold select_user. cbn [link set_users advance_seq users new_row id].
  rewrite Hl, filter_app, (filter_fresh_id _ _ Hfresh).
  cbn [app]. by rewrite filter_cons_True.
Qed.

(** A 201 comes from an insert that stored a row, and carries the scan
    of that row. *)
Lemma CreateUser_created is_email db (c : Context) (u : User) :
  Status (fst (CreateUser is_email db c)) = 201 ->
  field (Payload (fst (CreateUser is_email db c))) "user" = Some (VUser u) ->
  exists b r,
    ShouldBindJSON is_email c = inr b /\
    fst (insert_user db (in_Name b) (in_Email b)) = inr r /\
    snd (CreateUser is_email db c) = snd (insert_user db (in_Name b) (in_Email b)) /\
    Scan r = inr u.
Proof.
  unfold CreateUser. destruct (ShouldBindJSON is_email c) as [err|b]; [done|].
  destruct (insert_user db (in_Name b) (in_Email b)) as [[e|r] db'] eqn:Hins; [done|].
  cbn [ScanRow fst snd]. destruct (Scan r) as [e|u'] eqn:Hs; [done|].
  intros _ Hf. cbn in Hf. injection Hf as <-.
  exists b, r. by rewrite Hins.
Qed.

End RoundTrip.

(** C7 - a create that answers 201 with the row [u], followed by a get
    on the database it leaves, with a path id that denotes [ID u],
    answers 200 with the same row [u]; the decimal text of [ID u] is
    such a path id. *)
Theorem CreateUser_then_GetUser
    (is_email : string -> bool) (db : DB) (c c' : Context) (u : User) :
  Status (fst (CreateUser is_email db c)) = 201 ->
  field (Payload (fst (CreateUser is_email db c))) "user" = Some (VUser u) ->
  Atoi (Itoa (ID u)) = Some (ID u) /\
  (Atoi (Param c' "id") = Some (ID u) ->
     GetUser (snd (CreateUser is_email db c)) c' = JSON 200 [("user", VUser u)]).
Proof.
  intros H201 Hu.
  destruct (CreateUser_created is_email db c u H201 Hu) as (b & r & _ & Hr & -> & Hs).
  pose proof (Scan_ID r u Hs) as Hid.
  destruct (insert_user_row _ _ _ _ Hr) as (Hnew & _ & Hrange & _).
  split.
  - apply Atoi_Itoa. rewrite Hid, Hnew. exact Hrange.
  - intros Hi. unfold GetUser. rewrite Hi, Hid, (select_inserted _ _ _ _ Hr).
    cbn [ScanRow]. by rewrite Hs.
Qed.

Lemma CreateUser_then_GetUser_witness :
  let u := {| ID := 3; Name := "Grace"; Email := "grace@example.com";
              CreatedAt := 300; UpdatedAt := 300 |} in
  GetUser (snd (CreateUser Sample.has_at Sample.db2 (Sample.ctx "" Sample.grace_body)))
          (Sample.ctx "3" Sample.no_body)
    = JSON 200 [("user", VUser u)].
Proof.
  intros u.
  apply (proj2 (CreateUser_then_GetUser Sample.has_at Sample.db2
                  (Sample.ctx "" Sample.grace_body) (Sample.ctx "3" Sample.no_body) u
                  eq_refl eq_refl)).
  reflexivity.
Defined.

(** ** Well-formed ids *)

Lemma filter_no_rows i (rows : list Row) :
  (forall r, r ∈ rows -> id r <> i) -> filter (fun r => id r = i) rows = [].
Proof.
  intros Hnone. induction rows as [|r rows IH]; [done|].
  rewrite filter_cons_False by (apply Hnone, list_elem_of_here).
  apply IH. intros r' Hr'. by apply Hnone, list_elem_of_further.
Qed.

(** C10 (as amended) - with a path id that parses (zero and negative
    values included), the link up and no row of that id, [GetUser] and
    [DeleteUser] answer 404, and so does [UpdateUser] when the body
    binds; when the body does not bind, [UpdateUser] answers 400
    although the id is well-formed. *)
Theorem parsed_id_reaches_lookup
    (is_email : string -> bool) (db : DB) (c : Context) (i : Z) :
  Atoi "-5" = Some (-5) /\ Atoi "0" = Some 0 /\
  (Atoi (Param c "id") = Some i ->
   link db = None ->
   (forall r, r ∈ users db -> id r <> i) ->
   Status (GetUser db c) = 404 /\
   Status (fst (DeleteUser db c)) = 404 /\
   (forall b, ShouldBindJSON is_email c = inr b ->
      Status (fst (UpdateUser is_email db c)) = 404) /\
   (forall err, ShouldBindJSON is_email c = inl err ->
      Status (fst (UpdateUser is_email db c)) = 400)).
Proof.
  split; [reflexivity|]. split; [reflexivity|].
  intros Hi Hl Hnone. split; [|split; [|split]].
  - unfold GetUser. by rewrite Hi, (select_user_no_rows db i Hl Hnone).
  - unfold DeleteUser, delete_user. rewrite Hi, Hl.
    by rewrite (filter_no_rows i (users db) Hnone).
  - intros b Hb. rewrite (UpdateUser_resp is_email db c i b Hi Hb).
    by rewrite (update_user_no_rows _ _ _ _ Hl Hnone).
  - intros err Herr. unfold UpdateUser. by rewrite Hi, Herr.
Qed.

Lemma parsed_id_reaches_lookup_witness :
  Status (GetUser Sample.db2 (Sample.ctx "-5" Sample.grace_body)) = 404 /\
  Status (fst (DeleteUser Sample.db2 (Sample.ctx "0" Sample.grace_body))) = 404 /\
  Status (fst (UpdateUser Sample.has_at Sample.db2 (Sample.ctx "-5" Sample.grace_body))) = 404 /\
  Status (fst (UpdateUser Sample.has_at Sample.db2 (Sample.ctx "-5" (Sample.body_of [])))) = 400.
Proof.
  assert (forall i, i <= 0 -> forall r, r ∈ users Sample.db2 -> id r <> i) as Hnone.
  { intros i Hi. apply Forall_forall.
    repeat (constructor; [cbn; lia|]). constructor. }
  destruct (proj2 (proj2 (parsed_id_reaches_lookup Sample.has_at Sample.db2
                            (Sample.ctx "-5" Sample.grace_body) (-5)))
              eq_refl eq_refl (Hnone (-5) ltac:(lia))) as (Hget & _ & Hput & _).
  destruct (proj2 (proj2 (parsed_id_reaches_lookup Sample.has_at Sample.db2
                            (Sample.ctx "0" Sample.grace_body) 0))
              eq_refl eq_refl (Hnone 0 ltac:(lia))) as (_ & Hdel & _).
  destruct (proj2 (proj2 (parsed_id_reaches_lookup Sample.has_at Sample.db2
                            (Sample.ctx "-5" (Sample.body_of [])) (-5)))
              eq_refl eq_refl (Hnone (-5) ltac:(lia))) as (_ & _ & _ & Hbad).
  split; [exact Hget|]. split; [exact Hdel|]. split.
  - exact (Hput _ eq_refl).
  - exact (Hbad _ eq_refl).
Defined.

(** A well-formed id does not keep [UpdateUser] from answering 400:
    the body is bound before the database is asked. *)
Lemma UpdateUser_parsed_id_bad_body :
  ~ (forall (is_email : string -> bool) (db : DB) (c : Context) (i : Z),
       Atoi (Param c "id") = Some i ->
       link db = None ->
       (forall r, r ∈ users db -> id r <> i) ->
       Status (fst (UpdateUser is_email db c)) = 404).
Proof.
  intros Hclaim.
  specialize (Hclaim Sample.has_at Sample.empty_db (Sample.ctx "-5" (Sample.body_of [])) (-5)
                eq_refl eq_refl).
  assert (Status (fst (UpdateUser Sample.has_at Sample.empty_db
                         (Sample.ctx "-5" (Sample.body_of [])))) = 400) as H400 by reflexivity.
  rewrite Hclaim in H400; [discriminate|].
  intros r Hr. by apply elem_of_nil in Hr.
Qed.

(** ** The primary key *)

Section PrimaryKey.

Implicit Types (db : DB) (n e : string) (i : Z).

Lemma insert_user_pk db n e : pk_unique db -> pk_unique (snd (insert_user db n e)).
Proof.
  unfold pk_unique, insert_user. intros Hpk.
  destruct (link db); [done|].
  destruct (in_int (users_id_seq db)); [|done]. simpl.
  case_bool_decide as Hin; [done|]. simpl.
  rewrite map_app. apply NoDup_app. split; [done|]. split.
  - intros x Hx [->|[]%elem_of_nil]%elem_of_cons. done.
  - apply NoDup_singleton.
Qed.

Lemma update_user_pk db n e i : pk_unique db -> pk_unique (snd (update_user db n e i)).
Proof.
  unfold pk_unique, update_user. intros Hpk.
  destruct (link db); [done|].
  destruct (filter _ _); [done|]. simpl.
  rewrite map_map.
  erewrite map_ext; [exact Hpk|].
  intros r'. simpl. by destruct (decide (id r' = i)).
Qed.

Lemma delete_user_pk db i : pk_unique db -> pk_unique (snd (delete_user db i)).
Proof.
  unfold pk_unique, delete_user. intros Hpk.
  destruct (link db); [done|]. simpl.
  apply (sublist_NoDup _ _ Hpk).
  apply (fmap_sublist id), sublist_filter.
Qed.

End PrimaryKey.

(** ** Routing *)

Lemma route_GetUser x :
  x <> "" ->
  Routes.lookup Routes.SetupRoutes Routes.GET ["api"; "v1"; "users"; x]
    = Some (Routes.GetUser, [("id", x)]).
Proof.
  intros Hx. cbn. destruct (String.eqb_spec x ""); done.
Qed.

Lemma route_UpdateUser x :
  x <> "" ->
  Routes.lookup Routes.SetupRoutes Routes.PUT ["api"; "v1"; "users"; x]
    = Some (Routes.UpdateUser, [("id", x)]).
Proof.
  intros Hx. cbn. destruct (String.eqb_spec x ""); done.
Qed.

Lemma route_DeleteUser x :
  x <> "" ->
  Routes.lookup Routes.SetupRoutes Routes.DELETE ["api"; "v1"; "users"; x]
    = Some (Routes.DeleteUser, [("id", x)]).
Proof.
  intros Hx. cbn. destruct (String.eqb_spec x ""); done.
Qed.

Lemma route_users :
  Routes.lookup Routes.SetupRoutes Routes.GET ["api"; "v1"; "users"] = Some (Routes.GetUsers, [])
  /\ Routes.lookup Routes.SetupRoutes Routes.POST ["api"; "v1"; "users"]
     = Some (Routes.CreateUser, [])
  /\ Routes.lookup Routes.SetupRoutes Routes.GET ["health"] = Some (Routes.HealthCheck, []).
Proof. done. Qed.

(** * Further properties of the handlers *)

(** ** Delete, then look again *)

Section AfterDelete.

Implicit Types (db : DB) (c : Context) (i : Z) (rows : list Row).

Lemma set_users_same db : set_users db (users db) = db.
Proof. by destruct db. Qed.

Lemma filter_other_idem i rows :
  filter (fun r => id r <> i) (filter (fun r => id r <> i) rows)
    = filter (fun r => id r <> i) rows.
Proof.
  induction rows as [|r rows IH]; [done|].
  rewrite (filter_cons (fun r => id r <> i) r rows).
  destruct (decide (id r <> i)) as [Hne|_]; [|exact IH].
  rewrite filter_cons_True by done. by rewrite IH.
Qed.

Lemma filter_same_after_delete i rows :
  filter (fun r => id r = i) (filter (fun r => id r <> i) rows) = [].
Proof.
  apply filter_no_rows. intros r Hr. by apply list_elem_of_filter in Hr as [Hne _].
Qed.

Lemma filter_head_in i rows r rest :
  filter (fun r => id r = i) rows = r :: rest -> r ∈ rows /\ id r = i.
Proof.
  intros Hf.
  assert (r ∈ filter (fun r => id r = i) rows) as Hin
    by (rewrite Hf; apply list_elem_of_here).
  apply list_elem_of_filter in Hin. tauto.
Qed.

(** What a 200 from [DeleteUser] tells about the call. *)
Lemma DeleteUser_ok_inv db c :
  Status (fst (DeleteUser db c)) = 200 ->
  exists i, Atoi (Param c "id") = Some i /\ link db = None /\
    (exists r, r ∈ users db /\ id r = i) /\
    snd (DeleteUser db c) = set_users db (filter (fun r => id r <> i) (users db)).
Proof.
  unfold DeleteUser, delete_user.
  destruct (Atoi (Param c "id")) as [i|]; [|done].
  destruct (link db) as [msg|] eqn:Hl; [done|].
  destruct (filter (fun r => id r = i) (users db)) as [|r rest] eqn:Hf; [done|].
  intros _. exists i. split; [done|]. split; [done|]. split.
  - exists r. by apply (filter_head_in i (users db) r rest).
  - cbn [length]. destruct (Z.eqb_spec (Z.of_nat (S (length rest))) 0); [lia|done].
Qed.

(** With a primary key at most one row carries an id. *)
Lemma pk_at_most_one i rows :
  NoDup (map id rows) -> (length (filter (fun r => id r = i) rows) <= 1)%nat.
Proof.
  induction rows as [|r rows IH]; [simpl; lia|].
  cbn [map]. intros [Hnotin Hnd]%NoDup_cons.
  rewrite (filter_cons (fun r => id r = i) r rows).
  destruct (decide (id r = i)) as [Heq|Hne]; [|by apply IH].
  rewrite filter_no_rows; [simpl; lia|].
  intros r' Hr' Hid. apply Hnotin. rewrite Heq, <- Hid. by apply (list_elem_of_fmap_2 id).
Qed.

Lemma length_filter_split i rows :
  (length (filter (fun r => id r = i) rows) + length (filter (fun r => id r <> i) rows)
   = length rows)%nat.
Proof.
  induction rows as [|r rows IH]; [done|].
  rewrite (filter_cons (fun r => id r = i)), (filter_cons (fun r => id r <> i)).
  destruct (decide (id r = i)), (decide (id r <> i)); simpl; try lia; done.
Qed.

End AfterDelete.

(** X1 - after a [DeleteUser] that answered 200, a [GetUser] for the
    same id on the database it left answers 404. *)
Theorem DeleteUser_then_GetUser (db : DB) (c c' : Context) (i : Z) :
  Atoi (Param c "id") = Some i ->
  Atoi (Param c' "id") = Some i ->
  Status (fst (DeleteUser db c)) = 200 ->
  Status (GetUser (snd (DeleteUser db c)) c') = 404.
Proof.
  intros Hi Hi' H200.
  destruct (DeleteUser_ok_inv db c H200) as (j & Hj & Hl & _ & ->).
  assert (j = i) as -> by congruence.
  unfold GetUser. rewrite Hi'.
  rewrite (select_user_no_rows _ i); [done | done |].
  cbn [users set_users]. intros r Hr. by apply list_elem_of_filter in Hr as [Hne _].
Qed.

Lemma DeleteUser_then_GetUser_witness :
  Status (GetUser (snd (DeleteUser Sample.db2 (Sample.ctx "2" Sample.no_body)))
            (Sample.ctx "+2" Sample.no_body)) = 404.
Proof.
  apply (DeleteUser_then_GetUser Sample.db2 (Sample.ctx "2" Sample.no_body)
           (Sample.ctx "+2" Sample.no_body) 2); reflexivity.
Defined.

(** X2 - a [DeleteUser] repeated right after one that answered 200
    answers 404 and leaves the database as the first one left it. *)
Theorem DeleteUser_twice (db : DB) (c : Context) :
  Status (fst (DeleteUser db c)) = 200 ->
  DeleteUser (snd (DeleteUser db c)) c
    = (JSON 404 [("error", VString "User not found")], snd (DeleteUser db c)).
Proof.
  intros H200.
  destruct (DeleteUser_ok_inv db c H200) as (i & Hi & Hl & _ & ->).
  unfold DeleteUser, delete_user. rewrite Hi. cbn [link users set_users]. rewrite Hl.
  rewrite filter_same_after_delete, filter_other_idem. done.
Qed.

Lemma DeleteUser_twice_witness :
  Status (fst (DeleteUser (snd (DeleteUser Sample.db2 (Sample.ctx "1" Sample.no_body)))
                 (Sample.ctx "1" Sample.no_body))) = 404.
Proof.
  rewrite (DeleteUser_twice Sample.db2 (Sample.ctx "1" Sample.no_body) eq_refl).
  reflexivity.
Defined.

(** X3 - with the link up and an id that parses, [DeleteUser] answers
    200 exactly when some row has the id and 404 exactly when none
    has; on a table with a primary key a 200 removes exactly one
    row. *)
Theorem DeleteUser_found_iff (db : DB) (c : Context) (i : Z) :
  Atoi (Param c "id") = Some i ->
  link db = None ->
  (Status (fst (DeleteUser db c)) = 200 <-> exists r, r ∈ users db /\ id r = i) /\
  (Status (fst (DeleteUser db c)) = 404 <-> forall r, r ∈ users db -> id r <> i) /\
  (pk_unique db -> Status (fst (DeleteUser db c)) = 200 ->
     (length (users (snd (DeleteUser db c))) + 1 = length (users db))%nat).
Proof.
  intros Hi Hl.
  assert (Hcases : (forall r, r ∈ users db -> id r <> i) \/ exists r, r ∈ users db /\ id r = i).
  { destruct (filter (fun r => id r = i) (users db)) as [|r rest] eqn:Hf.
    - left. intros r Hr Hid. by apply (filter_nil_not_elem_of _ _ r Hf).
    - right. exists r. by apply (filter_head_in i (users db) r rest). }
  assert (Hnone : (forall r, r ∈ users db -> id r <> i) -> Status (fst (DeleteUser db c)) = 404).
  { intros Hn. unfold DeleteUser, delete_user. by rewrite Hi, Hl, (filter_no_rows i _ Hn). }
  assert (Hsome : (exists r, r ∈ users db /\ id r = i) -> Status (fst (DeleteUser db c)) = 200).
  { intros (r & Hr & Hid). unfold DeleteUser, delete_user. rewrite Hi, Hl.
    destruct (filter (fun r => id r = i) (users db)) as [|r' rest] eqn:Hf.
    - by destruct (filter_nil_not_elem_of _ _ r Hf Hid).
    - cbn [length]. destruct (Z.eqb_spec (Z.of_nat (S (length rest))) 0); [lia|done]. }
  split; [|split].
  - split; [|exact Hsome]. intros H200.
    destruct Hcases as [Hn|Hs]; [|done]. rewrite (Hnone Hn) in H200. discriminate.
  - split; [|exact Hnone]. intros H404.
    destruct Hcases as [Hn|Hs]; [done|]. rewrite (Hsome Hs) in H404. discriminate.
  - intros Hpk H200.
    destruct (DeleteUser_ok_inv db c H200) as (j & Hj & _ & (r & Hr & Hid) & ->).
    assert (j = i) as -> by congruence. cbn [users set_users].
    pose proof (pk_at_most_one i (users db) Hpk) as Hle.
    pose proof (length_filter_split i (users db)) as Hsplit.
    assert (length (filter (fun r => id r = i) (users db)) <> 0)%nat as Hne.
    { intros H0. apply length_zero_iff_nil in H0.
      by apply (filter_nil_not_elem_of _ _ r H0). }
    lia.
Qed.

Lemma DeleteUser_found_iff_witness :
  (length (users (snd (DeleteUser Sample.db2 (Sample.ctx "2" Sample.no_body)))) + 1
   = length (users Sample.db2))%nat /\
  forall r, r ∈ users Sample.db2 -> id r <> 7.
Proof.
  destruct (DeleteUser_found_iff Sample.db2 (Sample.ctx "2" Sample.no_body) 2 eq_refl eq_refl)
    as (_ & _ & Hlen).
  destruct (DeleteUser_found_iff Sample.db2 (Sample.ctx "7" Sample.no_body) 7 eq_refl eq_refl)
    as (_ & H404 & _).
  split.
  - apply Hlen; [|reflexivity]. unfold pk_unique. cbn.
    apply NoDup_cons. split; [rewrite elem_of_cons, elem_of_nil; intuition discriminate|].
    apply NoDup_singleton.
  - apply H404. reflexivity.
Defined.

(** ** Update, then get *)

Section AfterUpdate.

Implicit Types (db : DB) (c : Context) (i : Z) (rows : list Row) (n e : string).

(** The rewriting of the table commutes with the selection by id. *)
Lemma filter_updated n e t i rows :
  filter (fun r => id r = i)
         (map (fun r => if decide (id r = i) then set_row n e t r else r) rows)
    = map (set_row n e t) (filter (fun r => id r = i) rows).
Proof.
  induction rows as [|r rows IH]; [done|].
  cbn [map]. rewrite (filter_cons (fun r => id r = i) r rows).
  destruct (decide (id r = i)) as [Heq|Hne].
  - rewrite filter_cons_True by done. cbn [map]. by rewrite IH.
  - rewrite filter_cons_False by done. exact IH.
Qed.

(** What a 200 from [UpdateUser] tells about the call. *)
Lemma UpdateUser_ok_inv is_email db c (u : User) :
  Status (fst (UpdateUser is_email db c)) = 200 ->
  field (Payload (fst (UpdateUser is_email db c))) "user" = Some (VUser u) ->
  exists i b r0 rest,
    Atoi (Param c "id") = Some i /\
    ShouldBindJSON is_email c = inr b /\
    link db = None /\
    filter (fun r => id r = i) (users db) = r0 :: rest /\
    Scan (set_row (in_Name b) (in_Email b) (now db) r0) = inr u /\
    snd (UpdateUser is_email db c)
      = set_users db (map (fun r => if decide (id r = i)
                                    then set_row (in_Name b) (in_Email b) (now db) r
                                    else r) (users db)).
Proof.
  unfold UpdateUser, update_user.
  destruct (Atoi (Param c "id")) as [i|]; [|done].
  destruct (ShouldBindJSON is_email c) as [err|b]; [done|].
  destruct (link db) as [msg|] eqn:Hl; [done|].
  destruct (filter (fun r => id r = i) (users db)) as [|r0 rest] eqn:Hf; [done|].
  cbn [ScanRow].
  destruct (Scan (set_row (in_Name b) (in_Email b) (now db) r0)) as [err|u'] eqn:Hs.
  - by destruct (is_ErrNoRows err).
  - intros _ Hu. cbn in Hu. injection Hu as <-.
    by exists i, b, r0, rest.
Qed.

End AfterUpdate.

(** X4 - after an [UpdateUser] that answered 200 with the row [u], a
    [GetUser] for the same id on the database it left answers 200
    with the same row [u]. *)
Theorem UpdateUser_then_GetUser
    (is_email : string -> bool) (db : DB) (c c' : Context) (u : User) :
  Status (fst (UpdateUser is_email db c)) = 200 ->
  field (Payload (fst (UpdateUser is_email db c))) "user" = Some (VUser u) ->
  Atoi (Param c' "id") = Atoi (Param c "id") ->
  GetUser (snd (UpdateUser is_email db c)) c' = JSON 200 [("user", VUser u)].
Proof.
  intros H200 Hu Hsame.
  destruct (UpdateUser_ok_inv is_email db c u H200 Hu)
    as (i & b & r0 & rest & Hi & _ & Hl & Hf & Hs & ->).
  unfold GetUser, select_user. rewrite Hsame, Hi. cbn [link users set_users].
  rewrite Hl, filter_updated, Hf. cbn [map ScanRow]. by rewrite Hs.
Qed.

Lemma UpdateUser_then_GetUser_witness :
  GetUser (snd (UpdateUser Sample.has_at Sample.db3 (Sample.ctx "2" Sample.grace_body)))
          (Sample.ctx "2" Sample.no_body)
    = JSON 200 [("user", VUser {| ID := 2; Name := "Grace"; Email := "grace@example.com";
                                  CreatedAt := 250; UpdatedAt := 1000 |})].
Proof.
  apply (UpdateUser_then_GetUser Sample.has_at Sample.db3
           (Sample.ctx "2" Sample.grace_body) (Sample.ctx "2" Sample.no_body)); reflexivity.
Defined.

(** ** What a 404 and a 200 of [GetUser] mean *)

(** X5 - [GetUser] answers 404 only when the id parsed, the statement
    ran and no row of the table has the id; it answers 200 only when
    a row with the id is in the table. *)
Theorem GetUser_answers_mean (db : DB) (c : Context) :
  (Status (GetUser db c) = 404 ->
     exists i, Atoi (Param c "id") = Some i /\ link db = None /\
               forall r, r ∈ users db -> id r <> i) /\
  (Status (GetUser db c) = 200 ->
     exists i r, Atoi (Param c "id") = Some i /\ link db = None /\
                 r ∈ users db /\ id r = i /\
                 exists u, Scan r = inr u /\ GetUser db c = JSON 200 [("user", VUser u)]).
Proof.
  unfold GetUser. destruct (Atoi (Param c "id")) as [i|]; [|by split].
  destruct (select_user db i) as [e|r] eqn:Hq.
  - cbn [ScanRow]. apply select_user_error in Hq as [(msg & Hl & ->)|(Hl & -> & Hnone)].
    + by split.
    + split; [|done]. intros _. by exists i.
  - cbn [ScanRow]. apply select_user_found in Hq as (Hl & Hr & Hid).
    destruct (Scan r) as [e|u] eqn:Hs.
    + pose proof (Scan_not_ErrNoRows r) as Hne. rewrite Hs in Hne.
      destruct e; done.
    + split; [done|]. intros _. exists i, r. repeat split; try done. by exists u.
Qed.

Lemma GetUser_answers_mean_witness :
  (exists i, Atoi (Param (Sample.ctx "7" Sample.no_body) "id") = Some i /\
             link Sample.db2 = None /\ forall r, r ∈ users Sample.db2 -> id r <> i) /\
  (exists i r, Atoi (Param (Sample.ctx "1" Sample.no_body) "id") = Some i /\
               link Sample.db2 = None /\ r ∈ users Sample.db2 /\ id r = i /\
               exists u, Scan r = inr u /\
                 GetUser Sample.db2 (Sample.ctx "1" Sample.no_body)
                   = JSON 200 [("user", VUser u)]).
Proof.
  split.
  - apply (proj1 (GetUser_answers_mean Sample.db2 (Sample.ctx "7" Sample.no_body))). reflexivity.
  - apply (proj2 (GetUser_answers_mean Sample.db2 (Sample.ctx "1" Sample.no_body))). reflexivity.
Defined.

(** ** The list after a create and after a delete *)

Section ListAfter.

Implicit Types (db : DB) (c : Context) (i : Z) (rows : list Row) (us : list User).

Lemma scanned_in_r rows us u :
  Forall2 (fun r u => Scan r = inr u) rows us ->
  u ∈ us -> exists r, r ∈ rows /\ Scan r = inr u.
Proof.
  induction 1 as [|r u' rows us Hru _ IH]; intros Hin; [by apply elem_of_nil in Hin|].
  apply elem_of_cons in Hin as [->|Hin].
  - exists r. split; [apply list_elem_of_here | done].
  - destruct (IH Hin) as (r' & Hr' & Hs). exists r'. split; [by apply list_elem_of_further | done].
Qed.

Lemma scanned_in_l rows us r :
  Forall2 (fun r u => Scan r = inr u) rows us ->
  r ∈ rows -> exists u, u ∈ us /\ Scan r = inr u.
Proof.
  induction 1 as [|r' u rows us Hru _ IH]; intros Hin; [by apply elem_of_nil in Hin|].
  apply elem_of_cons in Hin as [->|Hin].
  - exists u. split; [apply list_elem_of_here | done].
  - destruct (IH Hin) as (u' & Hu' & Hs). exists u'. split; [by apply list_elem_of_further | done].
Qed.

(** A loop that runs to its end has scanned every row. *)
Lemma scan_loop_inv rows acc s :
  scan_loop rows acc = inr s ->
  exists us, Forall2 (fun r u => Scan r = inr u) rows us /\ s = fold_left append us acc.
Proof.
  revert acc. induction rows as [|r rows IH]; intros acc; simpl.
  - intros [= <-]. exists []. split; [constructor | done].
  - destruct (Scan r) as [e|u] eqn:Hs; [done|]. intros Hloop.
    destruct (IH _ Hloop) as (us & Hus & ->).
    exists (u :: us). split; [by constructor | done].
Qed.

(** What a 200 from [GetUsers] holds. *)
Lemma GetUsers_ok_inv db s :
  Status (GetUsers db) = 200 ->
  field (Payload (GetUsers db)) "users" = Some (VUsers s) ->
  link db = None /\
  Forall2 (fun r u => Scan r = inr u) (merge_sort created_desc (users db)) (elems s) /\
  GetUsers db = JSON 200 [("users", VUsers s); ("count", VInt (len s))].
Proof.
  unfold GetUsers, select_users. destruct (link db) as [msg|]; [done|].
  cbn [fetched rows_err].
  destruct (scan_loop (merge_sort created_desc (users db)) nil_slice) as [e|s'] eqn:Hloop; [done|].
  intros _ Hs. cbn in Hs. injection Hs as <-.
  destruct (scan_loop_inv _ _ _ Hloop) as (us & Hus & ->).
  rewrite elems_fold_append. cbn [elems app]. done.
Qed.

(** The list endpoint on a table whose rows all scan. *)
Lemma GetUsers_scanned db :
  link db = None ->
  Forall (fun r => exists u, Scan r = inr u) (users db) ->
  exists s,
    GetUsers db = JSON 200 [("users", VUsers s); ("count", VInt (len s))] /\
    Forall2 (fun r u => Scan r = inr u) (merge_sort created_desc (users db)) (elems s).
Proof.
  intros Hl Hall. unfold GetUsers, select_users. rewrite Hl. cbn [fetched rows_err].
  assert (Forall (fun r => exists u, Scan r = inr u) (merge_sort created_desc (users db)))
    as Hall' by (by rewrite merge_sort_Permutation).
  destruct (scan_all _ Hall') as [us Hus].
  rewrite (scan_loop_ok _ us nil_slice Hus).
  exists (fold_left append us nil_slice). split; [done|].
  rewrite elems_fold_append. done.
Qed.

End ListAfter.

(** X6 - after a [CreateUser] that answered 201 with the row [u], on
    a table whose rows all scan, [GetUsers] answers 200, its array
    holds [u], and its count is one more than the number of rows
    before the create. *)
Theorem CreateUser_then_GetUsers
    (is_email : string -> bool) (db : DB) (c : Context) (u : User) :
  Status (fst (CreateUser is_email db c)) = 201 ->
  field (Payload (fst (CreateUser is_email db c))) "user" = Some (VUser u) ->
  Forall (fun r => exists u', Scan r = inr u') (users db) ->
  exists s,
    GetUsers (snd (CreateUser is_email db c))
      = JSON 200 [("users", VUsers s); ("count", VInt (len s))] /\
    u ∈ elems s /\
    len s = Z.of_nat (length (users db)) + 1.
Proof.
  intros H201 Hu Hall.
  destruct (CreateUser_created is_email db c u H201 Hu) as (b & r & _ & Hr & -> & Hs).
  destruct (insert_user_row _ _ _ _ Hr) as (_ & Hl & _ & _ & ->).
  destruct (GetUsers_scanned (set_users (advance_seq db) (users db ++ [r]))) as (s & Hresp & Hus).
  - exact Hl.
  - cbn [users set_users]. apply Forall_app. split; [done|].
    apply Forall_singleton. by exists u.
  - cbn [users set_users] in Hus. exists s. split; [exact Hresp|]. split.
    + assert (r ∈ merge_sort created_desc (users db ++ [r])) as Hin.
      { rewrite merge_sort_Permutation, elem_of_app, list_elem_of_singleton. by right. }
      destruct (scanned_in_l _ _ r Hus Hin) as (u' & Hu' & Hs').
      rewrite Hs in Hs'. by injection Hs' as <-.
    + unfold len. rewrite <- (Forall2_length _ _ _ Hus).
      rewrite (Permutation_length (merge_sort_Permutation _ _)), length_app.
      simpl. lia.
Qed.

Lemma CreateUser_then_GetUsers_witness :
  exists s,
    GetUsers (snd (CreateUser Sample.has_at Sample.db2 (Sample.ctx "" Sample.grace_body)))
      = JSON 200 [("users", VUsers s); ("count", VInt (len s))] /\
    len s = 3.
Proof.
  destruct (CreateUser_then_GetUsers Sample.has_at Sample.db2 (Sample.ctx "" Sample.grace_body)
              {| ID := 3; Name := "Grace"; Email := "grace@example.com";
                 CreatedAt := 300; UpdatedAt := 300 |} eq_refl eq_refl)
    as (s & Hresp & _ & Hlen).
  - repeat constructor; eexists; reflexivity.
  - exists s. split; [exact Hresp | exact Hlen].
Defined.

(** X7 - after a [DeleteUser] that answered 200 for the id [i], a
    [GetUsers] that answers 200 on the database it left lists no user
    with that id, and every user it lists was a row of the table
    before the delete. *)
Theorem DeleteUser_then_GetUsers (db : DB) (c : Context) (i : Z) (s : slice User) :
  Atoi (Param c "id") = Some i ->
  Status (fst (DeleteUser db c)) = 200 ->
  Status (GetUsers (snd (DeleteUser db c))) = 200 ->
  field (Payload (GetUsers (snd (DeleteUser db c)))) "users" = Some (VUsers s) ->
  forall u, u ∈ elems s -> ID u <> i /\ exists r, r ∈ users db /\ Scan r = inr u.
Proof.
  intros Hi Hdel H200 Hs u Hu.
  destruct (DeleteUser_ok_inv db c Hdel) as (j & Hj & _ & _ & Hdb).
  assert (j = i) as -> by congruence.
  rewrite Hdb in H200, Hs.
  destruct (GetUsers_ok_inv _ s H200 Hs) as (_ & Hus & _).
  cbn [users set_users] in Hus.
  destruct (scanned_in_r _ _ u Hus Hu) as (r & Hr & Hsr).
  rewrite merge_sort_Permutation in Hr.
  apply list_elem_of_filter in Hr as [Hne Hr].
  split; [by rewrite (Scan_ID r u Hsr) | by exists r].
Qed.

Lemma DeleteUser_then_GetUsers_witness :
  ID {| ID := 1; Name := "Ada"; Email := "ada@example.com";
        CreatedAt := 100; UpdatedAt := 100 |} <> 2 /\
  exists r, r ∈ users Sample.db2 /\
            Scan r = inr {| ID := 1; Name := "Ada"; Email := "ada@example.com";
                            CreatedAt := 100; UpdatedAt := 100 |}.
Proof.
  apply (DeleteUser_then_GetUsers Sample.db2 (Sample.ctx "2" Sample.no_body) 2
           (mk_slice [ {| ID := 1; Name := "Ada"; Email := "ada@example.com";
                          CreatedAt := 100; UpdatedAt := 100 |} ]));
    try reflexivity.
  cbn [elems]. apply list_elem_of_here.
Defined.

(** ** What the answers never hold *)

Section Answers.

Variable is_email : string -> bool.

Implicit Types (db : DB) (c : Context) (e : error).

(** The decoder saves type errors only. *)
Lemma decode_field_saved saved (u : UserInput) kv :
  (forall e, saved = Some e -> Server.is_bind_error e = true) ->
  forall e, fst (decode_field (saved, u) kv) = Some e -> Server.is_bind_error e = true.
Proof.
  intros Hsaved e. destruct kv as [k v]. unfold decode_field.
  destruct (String.eqb (fold_key k) "name"); [|destruct (String.eqb (fold_key k) "email")];
    destruct v, saved; cbn; intros [= <-]; auto.
Qed.

Lemma decode_fields_saved fields saved (u : UserInput) :
  (forall e, saved = Some e -> Server.is_bind_error e = true) ->
  forall e, fst (fold_left decode_field fields (saved, u)) = Some e ->
            Server.is_bind_error e = true.
Proof.
  revert saved u. induction fields as [|kv fields IH]; intros saved u Hsaved e; [by apply Hsaved|].
  cbn [fold_left]. destruct (decode_field (saved, u) kv) as [saved' u'] eqn:Hd.
  apply IH. intros e' He'. apply (decode_field_saved saved u kv Hsaved).
  by rewrite Hd.
Qed.

Lemma Decode_error_kind j e : Decode j = inl e -> Server.is_bind_error e = true.
Proof.
  unfold Decode. destruct j as [| | | | |fields]; try (by intros [= <-]).
  pose proof (decode_fields_saved fields None {| in_Name := ""; in_Email := "" |}) as Hs.
  destruct (fold_left decode_field fields _) as [[e'|] u]; [|done].
  intros [= <-]. by apply Hs.
Qed.

(** A binding error is never an error of the database. *)
Lemma ShouldBindJSON_error_kind c e :
  ShouldBindJSON is_email c = inl e -> Server.is_bind_error e = true.
Proof.
  unfold ShouldBindJSON. destruct (Body c) as [msg|j]; [by intros [= <-]|].
  destruct (Decode j) as [e'|u] eqn:Hd.
  - intros [= <-]. by apply (Decode_error_kind j).
  - destruct (validate is_email u); [done|]. by intros [= <-].
Qed.

End Answers.

(** Splits the lookups of a key in a literal [gin.H]. *)
Ltac field_cases :=
  cbn [field Payload JSON fst snd];
  repeat match goal with
         | |- context [String.eqb ?a ?b] => destruct (String.eqb a b)
         end;
  try done.

(** X8 - apart from the health check, no answer carries the text of
    a database error: an error text in an answer is that of a binding
    error, the status is then 400 and the database is as before. *)
Theorem no_database_error_in_answers
    (is_email : string -> bool) (db : DB) (req : Server.request) (key : string) (e : error) :
  (forall t, req <> Server.ReqHealth t) ->
  field (Payload (fst (Server.serve is_email db req))) key = Some (VErrorText e) ->
  Server.is_bind_error e = true /\
  Status (fst (Server.serve is_email db req)) = 400 /\
  snd (Server.serve is_email db req) = db.
Proof.
  intros Hreq. destruct req as [t| |c|c|c|c]; cbn [Server.serve fst snd].
  - by destruct (Hreq t).
  - unfold GetUsers. destruct (select_users db) as [err|rows]; [field_cases|].
    destruct (scan_loop (fetched rows) nil_slice); [field_cases|].
    destruct (rows_err rows); field_cases.
  - unfold GetUser. destruct (Atoi (Param c "id")); [|field_cases].
    destruct (ScanRow (select_user db z)) as [err|u]; [|field_cases].
    destruct (is_ErrNoRows err); field_cases.
  - unfold CreateUser. destruct (ShouldBindJSON is_email c) as [err|b] eqn:Hb.
    + cbn [field Payload JSON fst snd]. destruct (String.eqb "error" key); [|done].
      intros [= <-]. split; [by apply (ShouldBindJSON_error_kind is_email c)|done].
    + destruct (insert_user db (in_Name b) (in_Email b)) as [q db'].
      destruct (ScanRow q); field_cases.
  - unfold UpdateUser. destruct (Atoi (Param c "id")) as [i|]; [|field_cases].
    destruct (ShouldBindJSON is_email c) as [err|b] eqn:Hb.
    + cbn [field Payload JSON fst snd]. destruct (String.eqb "error" key); [|done].
      intros [= <-]. split; [by apply (ShouldBindJSON_error_kind is_email c)|done].
    + destruct (update_user db (in_Name b) (in_Email b) i) as [q db'].
      destruct (ScanRow q) as [err|u]; [|field_cases].
      destruct (is_ErrNoRows err); field_cases.
  - unfold DeleteUser. destruct (Atoi (Param c "id")) as [i|]; [|field_cases].
    destruct (delete_user db i) as [[err|n] db']; [field_cases|].
    destruct (n =? 0); field_cases.
Qed.

Lemma no_database_error_in_answers_witness :
  Server.is_bind_error (ErrJSON "EOF") = true /\
  Status (fst (Server.serve Sample.has_at Sample.db_down
                 (Server.ReqCreate (Sample.ctx "" Sample.no_body)))) = 400 /\
  snd (Server.serve Sample.has_at Sample.db_down
         (Server.ReqCreate (Sample.ctx "" Sample.no_body))) = Sample.db_down.
Proof.
  apply (no_database_error_in_answers Sample.has_at Sample.db_down
           (Server.ReqCreate (Sample.ctx "" Sample.no_body)) "error" (ErrJSON "EOF")).
  - discriminate.
  - reflexivity.
Defined.

(** X9 - each handler answers with a status of its row of the
    interface table and with no other. *)
Theorem handlers_status_codes (is_email : string -> bool) (db : DB) (req : Server.request) :
  Status (fst (Server.serve is_email db req)) ∈
    match req with
    | Server.ReqHealth _ => [200; 503]
    | Server.ReqList => [200; 500]
    | Server.ReqGet _ => [200; 400; 404; 500]
    | Server.ReqCreate _ => [201; 400; 500]
    | Server.ReqUpdate _ => [200; 400; 404; 500]
    | Server.ReqDelete _ => [200; 400; 404; 500]
    end.
Proof.
  destruct req as [t| |c|c|c|c]; cbn [Server.serve fst snd].
  - unfold HealthCheck. destruct (Pg.Ping db); cbn; rewrite !elem_of_cons; auto.
  - unfold GetUsers. destruct (select_users db) as [err|rows];
      [|destruct (scan_loop (fetched rows) nil_slice); [|destruct (rows_err rows)]];
      cbn; rewrite !elem_of_cons; auto.
  - unfold GetUser. destruct (Atoi (Param c "id"));
      [destruct (ScanRow (select_user db z)) as [err|u]; [destruct (is_ErrNoRows err)|]|];
      cbn; rewrite !elem_of_cons; auto.
  - unfold CreateUser. destruct (ShouldBindJSON is_email c) as [err|b];
      [|destruct (insert_user db (in_Name b) (in_Email b)) as [q db']; destruct (ScanRow q)];
      cbn; rewrite !elem_of_cons; auto.
  - unfold UpdateUser. destruct (Atoi (Param c "id")) as [i|];
      [destruct (ShouldBindJSON is_email c) as [err|b];
       [|destruct (update_user db (in_Name b) (in_Email b) i) as [q db'];
         destruct (ScanRow q) as [err|u]; [destruct (is_ErrNoRows err)|]]|];
      cbn; rewrite !elem_of_cons; auto.
  - unfold DeleteUser. destruct (Atoi (Param c "id")) as [i|];
      [destruct (delete_user db i) as [[err|n] db']; [|destruct (n =? 0)]|];
      cbn; rewrite !elem_of_cons; auto.
Qed.

(** ** What a run of requests keeps *)

Section Invariants.

Variable is_email : string -> bool.

Implicit Types (db : DB) (c : Context) (req : Server.request) (reqs : list Server.request).

(** An invariant of every request is an invariant of a run. *)
Lemma run_invariant (I : DB -> Prop) :
  (forall db req, I db -> I (snd (Server.serve is_email db req))) ->
  forall reqs db, I db -> I (Server.run is_email reqs db).
Proof.
  intros Hstep reqs. unfold Server.run.
  induction reqs as [|req reqs IH]; intros db HI; [done|].
  cbn [fold_left]. by apply IH, Hstep.
Qed.

(** The database a handler leaves is the one its statement leaves. *)
Lemma CreateUser_db db c :
  snd (CreateUser is_email db c) = db \/
  exists b, ShouldBindJSON is_email c = inr b /\
            snd (CreateUser is_email db c) = snd (insert_user db (in_Name b) (in_Email b)).
Proof.
  unfold CreateUser. destruct (ShouldBindJSON is_email c) as [err|b]; [by left|].
  right. exists b. split; [done|].
  destruct (insert_user db (in_Name b) (in_Email b)) as [q db']. by destruct (ScanRow q).
Qed.

Lemma UpdateUser_db_cases db c :
  snd (UpdateUser is_email db c) = db \/
  exists i b, ShouldBindJSON is_email c = inr b /\
              snd (UpdateUser is_email db c) = snd (update_user db (in_Name b) (in_Email b) i).
Proof.
  destruct (Atoi (Param c "id")) as [i|] eqn:Hi.
  - destruct (ShouldBindJSON is_email c) as [err|b] eqn:Hb.
    + left. unfold UpdateUser. by rewrite Hi, Hb.
    + right. exists i, b. split; [done|]. by apply UpdateUser_db.
  - left. unfold UpdateUser. by rewrite Hi.
Qed.

Lemma DeleteUser_db db c :
  snd (DeleteUser db c) = db \/ exists i, snd (DeleteUser db c) = snd (delete_user db i).
Proof.
  unfold DeleteUser. destruct (Atoi (Param c "id")) as [i|]; [|by left].
  right. exists i. destruct (delete_user db i) as [[err|n] db']; [done|].
  by destruct (n =? 0).
Qed.

Lemma serve_pk db req : pk_unique db -> pk_unique (snd (Server.serve is_email db req)).
Proof.
  intros Hpk. destruct req as [t| |c|c|c|c]; cbn [Server.serve snd]; try done.
  - destruct (CreateUser_db db c) as [->|(b & _ & ->)]; [done|]. by apply insert_user_pk.
  - destruct (UpdateUser_db_cases db c) as [->|(i & b & _ & ->)]; [done|]. by apply update_user_pk.
  - destruct (DeleteUser_db db c) as [->|(i & ->)]; [done|]. by apply delete_user_pk.
Qed.

(** The sequence never goes back. *)
Lemma insert_user_seq db n e : users_id_seq db <= users_id_seq (snd (insert_user db n e)).
Proof.
  unfold insert_user. destruct (link db); [done|].
  destruct (in_int (users_id_seq db)); [|done]. simpl.
  case_bool_decide; simpl; lia.
Qed.

Lemma serve_seq db req : users_id_seq db <= users_id_seq (snd (Server.serve is_email db req)).
Proof.
  destruct req as [t| |c|c|c|c]; cbn [Server.serve snd]; try done.
  - destruct (CreateUser_db db c) as [->|(b & _ & ->)]; [done|]. apply insert_user_seq.
  - destruct (UpdateUser_db_cases db c) as [->|(i & b & _ & ->)]; [done|].
    unfold update_user. destruct (link db); [done|]. by destruct (filter _ _).
  - destruct (DeleteUser_db db c) as [->|(i & ->)]; [done|].
    unfold delete_user. by destruct (link db).
Qed.

Lemma run_seq reqs db : users_id_seq db <= users_id_seq (Server.run is_email reqs db).
Proof.
  revert db. unfold Server.run. induction reqs as [|req reqs IH]; intros db; [done|].
  cbn [fold_left]. etrans; [apply (serve_seq db req) | apply IH].
Qed.

(** A 201 hands out the value of the sequence and moves it on. *)
Lemma CreateUser_takes_seq db c (u : User) :
  Status (fst (CreateUser is_email db c)) = 201 ->
  field (Payload (fst (CreateUser is_email db c))) "user" = Some (VUser u) ->
  ID u = users_id_seq db /\
  users_id_seq (snd (CreateUser is_email db c)) = users_id_seq db + 1 /\
  ID u ∉ map id (users db).
Proof.
  intros H201 Hu.
  destruct (CreateUser_created is_email db c u H201 Hu) as (b & r & _ & Hr & -> & Hs).
  destruct (insert_user_row _ _ _ _ Hr) as (-> & _ & _ & Hfresh & ->).
  rewrite (Scan_ID _ _ Hs). done.
Qed.

End Invariants.

(** X10 - a run of requests keeps the primary key: if no two rows
    share an id before, none do after. *)
Theorem run_keeps_primary_key
    (is_email : string -> bool) (reqs : list Server.request) (db : DB) :
  pk_unique db -> pk_unique (Server.run is_email reqs db).
Proof.
  apply (run_invariant is_email pk_unique). intros db' req. apply serve_pk.
Qed.

Lemma run_keeps_primary_key_witness :
  pk_unique (Server.run Sample.has_at
               [Server.ReqCreate (Sample.ctx "" Sample.grace_body);
                Server.ReqDelete (Sample.ctx "1" Sample.no_body);
                Server.ReqUpdate (Sample.ctx "2" Sample.ada_body)]
               Sample.db2).
Proof.
  apply run_keeps_primary_key. unfold pk_unique. cbn.
  apply NoDup_cons. split; [rewrite elem_of_cons, elem_of_nil; intuition discriminate|].
  apply NoDup_singleton.
Defined.

(** X11 - ids are not handed out twice: the id of a created row is
    not in the table before the create, and a later create, whatever
    requests (deletes included) are served in between, returns a
    greater id. *)
Theorem created_ids_never_reused
    (is_email : string -> bool) (db : DB) (c c2 : Context) (u u2 : User)
    (reqs : list Server.request) :
  Status (fst (CreateUser is_email db c)) = 201 ->
  field (Payload (fst (CreateUser is_email db c))) "user" = Some (VUser u) ->
  let db2 := Server.run is_email reqs (snd (CreateUser is_email db c)) in
  Status (fst (CreateUser is_email db2 c2)) = 201 ->
  field (Payload (fst (CreateUser is_email db2 c2))) "user" = Some (VUser u2) ->
  (ID u ∉ map id (users db)) /\ ID u < ID u2.
Proof.
  intros H201 Hu db2 H201' Hu2.
  destruct (CreateUser_takes_seq is_email db c u H201 Hu) as (Hid & Hseq & Hfresh).
  destruct (CreateUser_takes_seq is_email db2 c2 u2 H201' Hu2) as (Hid2 & _ & _).
  split; [done|].
  pose proof (run_seq is_email reqs (snd (CreateUser is_email db c))) as Hmono.
  subst db2. lia.
Qed.

Lemma created_ids_never_reused_witness :
  (3 ∉ map id (users Sample.db2)) /\ 3 < 4.
Proof.
  apply (created_ids_never_reused Sample.has_at Sample.db2
           (Sample.ctx "" Sample.grace_body) (Sample.ctx "" Sample.ada_body)
           {| ID := 3; Name := "Grace"; Email := "grace@example.com";
              CreatedAt := 300; UpdatedAt := 300 |}
           {| ID := 4; Name := "Ada"; Email := "ada@example.com";
              CreatedAt := 300; UpdatedAt := 300 |}
           [Server.ReqDelete (Sample.ctx "3" Sample.no_body)]); reflexivity.
Defined.

(** ** What the handlers write *)

Section Written.

Variable is_email : string -> bool.

Implicit Types (db : DB) (c : Context) (req : Server.request) (r : Row).

Lemma Forall_kept (P : Row -> Prop) i (rows : list Row) :
  Forall P rows -> Forall P (filter (fun r => id r <> i) rows).
Proof.
  rewrite !Forall_forall. intros Hall r Hr.
  apply list_elem_of_filter in Hr as [_ Hr]. by apply Hall.
Qed.

Lemma bound_row_ok (b : UserInput) r :
  (exists c, ShouldBindJSON is_email c = inr b) ->
  name r = Some (in_Name b) -> email r = Some (in_Email b) ->
  Server.api_row is_email r.
Proof.
  intros [c Hb] Hn He.
  apply ShouldBindJSON_ok in Hb as (j & _ & _ & Hne & Hee & Hm).
  exists (in_Name b), (in_Email b). done.
Qed.

Lemma serve_api_rows db req :
  Forall (Server.api_row is_email) (users db) ->
  Forall (Server.api_row is_email) (users (snd (Server.serve is_email db req))).
Proof.
  intros Hall. destruct req as [t| |c|c|c|c]; cbn [Server.serve snd]; try done.
  - destruct (CreateUser_db is_email db c) as [->|(b & Hb & ->)]; [done|].
    unfold insert_user. destruct (link db); [done|].
    destruct (in_int (users_id_seq db)); [|done]. simpl.
    case_bool_decide; [done|]. simpl.
    apply Forall_app. split; [done|]. apply Forall_singleton.
    apply (bound_row_ok b); [by exists c | done | done].
  - destruct (UpdateUser_db_cases is_email db c) as [->|(i & b & Hb & ->)]; [done|].
    unfold update_user. destruct (link db); [done|].
    destruct (filter _ _) as [|r0 rest]; [done|]. simpl.
    apply Forall_fmap. eapply Forall_impl; [exact Hall|].
    intros r Hr. simpl. destruct (decide (id r = i)); [|done].
    apply (bound_row_ok b); [by exists c | done | done].
  - destruct (DeleteUser_db db c) as [->|(i & ->)]; [done|].
    unfold delete_user. destruct (link db); [done|]. simpl.
    by apply Forall_kept.
Qed.

Lemma serve_time_ok db req :
  Server.time_ok db -> Server.time_ok (snd (Server.serve is_email db req)).
Proof.
  unfold Server.time_ok. intros Hall.
  destruct req as [t| |c|c|c|c]; cbn [Server.serve snd]; try done.
  - destruct (CreateUser_db is_email db c) as [->|(b & Hb & ->)]; [done|].
    unfold insert_user. destruct (link db); [done|].
    destruct (in_int (users_id_seq db)); [|done]. simpl.
    case_bool_decide; [done|]. simpl.
    apply Forall_app. split; [done|]. apply Forall_singleton.
    simpl. intros c0 [= <-]. split; [lia|]. intros u0 [= <-]. lia.
  - destruct (UpdateUser_db_cases is_email db c) as [->|(i & b & Hb & ->)]; [done|].
    unfold update_user. destruct (link db); [done|].
    destruct (filter _ _) as [|r0 rest]; [done|]. simpl.
    apply Forall_fmap. eapply Forall_impl; [exact Hall|].
    intros r Hr. simpl. destruct (decide (id r = i)); [|done].
    simpl. intros c0 Hc0. destruct (Hr c0 Hc0) as [Hle _].
    split; [done|]. by intros u0 [= <-].
  - destruct (DeleteUser_db db c) as [->|(i & ->)]; [done|].
    unfold delete_user. destruct (link db); [done|]. simpl.
    by apply Forall_kept.
Qed.

Lemma at_time_ok db t : now db <= t -> Server.time_ok db -> Server.time_ok (Server.at_time t db).
Proof.
  unfold Server.time_ok. intros Hle Hall. simpl.
  eapply Forall_impl; [exact Hall|].
  intros r Hr c0 Hc0. destruct (Hr c0 Hc0) as [Hnow Hup]. split; [lia | done].
Qed.

End Written.

(** X12 - rows written through the handlers are valid: if every row
    of the table has a name that is not empty and an email that
    passes the [email] rule, the same holds after any run of
    requests. *)
Theorem run_keeps_rows_valid
    (is_email : string -> bool) (reqs : list Server.request) (db : DB) :
  Forall (Server.api_row is_email) (users db) ->
  Forall (Server.api_row is_email) (users (Server.run is_email reqs db)).
Proof.
  apply (run_invariant is_email (fun d => Forall (Server.api_row is_email) (users d))).
  intros db' req. apply serve_api_rows.
Qed.

Lemma run_keeps_rows_valid_witness :
  Forall (Server.api_row Sample.has_at)
    (users (Server.run Sample.has_at
              [Server.ReqCreate (Sample.ctx "" Sample.grace_body);
               Server.ReqUpdate (Sample.ctx "1" Sample.grace_body)]
              Sample.db2)).
Proof.
  apply run_keeps_rows_valid.
  repeat constructor; eexists _, _; repeat split; try reflexivity; discriminate.
Defined.

(** X13 - the timestamps stay in order: if no row has a [created_at]
    after its [updated_at] or after the database time, the same holds
    after any handler has run, and when the database time moves
    forward. *)
Theorem handlers_keep_timestamps_ordered
    (is_email : string -> bool) (db : DB) (req : Server.request) (t : Time) :
  Server.time_ok db ->
  now db <= t ->
  Server.time_ok (snd (Server.serve is_email db req)) /\
  Server.time_ok (Server.at_time t (snd (Server.serve is_email db req))).
Proof.
  intros Hok Ht.
  pose proof (serve_time_ok is_email db req Hok) as Hok'.
  split; [done|]. apply at_time_ok; [|done].
  assert (now (snd (Server.serve is_email db req)) = now db) as ->; [|done].
  destruct req as [t0| |c|c|c|c]; cbn [Server.serve snd]; try done.
  - destruct (CreateUser_db is_email db c) as [->|(b & _ & ->)]; [done|].
    unfold insert_user. destruct (link db); [done|].
    destruct (in_int (users_id_seq db)); [|done]. simpl. by case_bool_decide.
  - destruct (UpdateUser_db_cases is_email db c) as [->|(i & b & _ & ->)]; [done|].
    unfold update_user. destruct (link db); [done|]. by destruct (filter _ _).
  - destruct (DeleteUser_db db c) as [->|(i & ->)]; [done|].
    unfold delete_user. by destruct (link db).
Qed.

Lemma handlers_keep_timestamps_ordered_witness :
  Server.time_ok
    (Server.at_time 2000
       (snd (Server.serve Sample.has_at Sample.db3
               (Server.ReqUpdate (Sample.ctx "1" Sample.grace_body))))).
Proof.
  apply (handlers_keep_timestamps_ordered Sample.has_at Sample.db3
           (Server.ReqUpdate (Sample.ctx "1" Sample.grace_body)) 2000).
  - unfold Server.time_ok, Sample.db3. cbn [users now].
    repeat (apply Forall_cons; split;
            [cbn; intros c0 [= <-]; split; [lia | intros u0 [= <-]; lia]|]).
    constructor.
  - cbn. lia.
Defined.

(** ** What the router hands to the handlers *)

(** X14 - a request is routed in one of these ways only: to a
    handler without parameters on its literal path; on a path
    [api/v1/users/x] with [x] not empty, to [GetUser], [UpdateUser] or
    [DeleteUser] by the method, with [x] as the parameter [id]; or,
    for GET and HEAD on a path below [static], to the file server
    with the rest of the path as [filepath]. A handler that reads
    [id] is never given an empty one. *)
Theorem routed_requests (m : Routes.method) (path : list string)
    (h : Routes.handler) (ps : list (string * string)) :
  Routes.lookup Routes.SetupRoutes m path = Some (h, ps) ->
  (ps = [] /\
   ((m = Routes.GET /\ path = ["health"] /\ h = Routes.HealthCheck) \/
    (m = Routes.GET /\ path = ["api"; "v1"; "users"] /\ h = Routes.GetUsers) \/
    (m = Routes.POST /\ path = ["api"; "v1"; "users"] /\ h = Routes.CreateUser) \/
    (m = Routes.GET /\ path = ["api"; "v1"; "ping"] /\ h = Routes.Ping) \/
    (m = Routes.GET /\ path = [] /\ h = Routes.Index))) \/
  (exists x, x <> "" /\ path = ["api"; "v1"; "users"; x] /\
             ps = [("id", x)] /\ ByName ps "id" = x /\
             ((m = Routes.GET /\ h = Routes.GetUser) \/
              (m = Routes.PUT /\ h = Routes.UpdateUser) \/
              (m = Routes.DELETE /\ h = Routes.DeleteUser))) \/
  (exists x rest, path = "static" :: x :: rest /\
                  ps = [("filepath", "/" +:+ Routes.join_path (x :: rest))] /\
                  h = Routes.Static /\ (m = Routes.GET \/ m = Routes.HEAD)).
Proof.
  destruct m; destruct path as [|a [|b [|c [|d [|e rest]]]]];
    cbn [Routes.lookup Routes.SetupRoutes Routes.method_eqb Routes.match_path fmap option_fmap option_map];
    repeat match goal with
           | |- context [String.eqb ?s ?t] => destruct (String.eqb_spec s t); subst
           end;
    cbn [Routes.lookup Routes.SetupRoutes Routes.method_eqb Routes.match_path fmap option_fmap option_map];
    try discriminate;
    intros [= <- <-];
    first [ left; split; [reflexivity|]; tauto
          | right; left; eexists; cbn; repeat split; (reflexivity || tauto)
          | right; right; eexists _, _; repeat split; (reflexivity || tauto) ].
Qed.

Lemma routed_requests_witness :
  exists x, x <> "" /\ ["api"; "v1"; "users"; "42"] = ["api"; "v1"; "users"; x] /\
            [("id", "42")] = [("id", x)] /\ ByName [("id", "42")] "id" = x /\
            ((Routes.PUT = Routes.GET /\ Routes.UpdateUser = Routes.GetUser) \/
             (Routes.PUT = Routes.PUT /\ Routes.UpdateUser = Routes.UpdateUser) \/
             (Routes.PUT = Routes.DELETE /\ Routes.UpdateUser = Routes.DeleteUser)).
Proof.
  destruct (routed_requests Routes.PUT ["api"; "v1"; "users"; "42"]
              Routes.UpdateUser [("id", "42")] eq_refl) as [[Hps _]|[Hid|Hstatic]].
  - discriminate Hps.
  - exact Hid.
  - destruct Hstatic as (x & rest & Hpath & _). discriminate Hpath.
Defined.

(** The file server is reached below [static] by GET and by HEAD,
    whatever the depth of the path. *)
Lemma route_static x rest :
  Routes.lookup Routes.SetupRoutes Routes.GET ("static" :: x :: rest)
    = Some (Routes.Static, [("filepath", "/" +:+ Routes.join_path (x :: rest))]) /\
  Routes.lookup Routes.SetupRoutes Routes.HEAD ("static" :: x :: rest)
    = Some (Routes.Static, [("filepath", "/" +:+ Routes.join_path (x :: rest))]).
Proof. split; reflexivity. Qed.

(** ** Start-up *)

(** X15 - [main] fails fast: when [initDB] fails the process logs
    the error and exits with status 1 without registering routes or
    listening; the server listens only after the database has
    answered and the templates have loaded, on the port of [PORT] or
    on 8080 when that is unset; and when the process ends by itself
    its status is 1, or 2 in the one case that the database answered
    and [routes.SetupRoutes] panicked on the templates. *)
Theorem main_fails_fast (env : Main.Env) :
  (forall msg, Main.initDB_err env = Some msg ->
     Proc.call (Main.main env)
       = (Proc.OsExit 1, [Proc.EvLog ("Failed to connect to database:" +:+ msg)])) /\
  (forall addr, Proc.EvListen addr ∈ snd (Proc.call (Main.main env)) ->
     Main.initDB_err env = None /\
     Main.templates_err env = None /\
     addr = ":" +:+ (if String.eqb (Main.getenv env "PORT") "" then "8080"
                     else Main.getenv env "PORT")) /\
  (forall code, Proc.exit_status (fst (Proc.call (Main.main env))) = Some code ->
     code = 1 \/
     (code = 2 /\ Main.initDB_err env = None /\
      exists msg, Main.templates_err env = Some msg)).
Proof.
  run_main.
  destruct (Main.initDB_err env) as [dberr|]; cbn.
  - split; [by intros msg' [= <-]|]. split.
    + intros addr Hin. not_in_events Hin.
    + intros code [= <-]. by left.
  - split; [done|].
    destruct (Main.templates_err env) as [terr|]; cbn.
    + split.
      * intros addr Hin. not_in_events Hin.
      * intros code [= <-]. right. split; [done|]. split; [done|]. by exists terr.
    + split.
      * intros addr. destruct (Main.listen_err env); cbn;
          rewrite !elem_of_cons, elem_of_nil; intros Hin;
          repeat (destruct Hin as [Hin|Hin]; try discriminate); try done;
          by injection Hin as ->.
      * intros code. destruct (Main.listen_err env); cbn; [|done].
        intros [= <-]. by left.
Qed.

Lemma main_fails_fast_witness :
  Proc.call (Main.main {| Main.getenv := fun _ => "";
                          Main.initDB_err := Some "failed to ping database";
                          Main.templates_err := None;
                          Main.listen_err := None |})
    = (Proc.OsExit 1,
       [Proc.EvLog ("Failed to connect to database:" +:+ "failed to ping database")]) /\
  ":9090" = ":" +:+ "9090" /\
  (2 = 1 \/
   (2 = 2 /\ (None : option string) = None /\
    exists msg, Some "html/template: pattern matches no files" = Some msg)).
Proof.
  split; [|split].
  - apply (proj1 (main_fails_fast {| Main.getenv := fun _ => "";
                                     Main.initDB_err := Some "failed to ping database";
                                     Main.templates_err := None;
                                     Main.listen_err := None |})).
    reflexivity.
  - apply (proj1 (proj2 (main_fails_fast
                           {| Main.getenv := fun _ => "9090";
                              Main.initDB_err := None;
                              Main.templates_err := None;
                              Main.listen_err := None |})) ":9090").
    cbn. rewrite !elem_of_cons. tauto.
  - apply (proj2 (proj2 (main_fails_fast
                           {| Main.getenv := fun _ => "";
                              Main.initDB_err := None;
                              Main.templates_err := Some "html/template: pattern matches no files";
                              Main.listen_err := None |})) 2).
    reflexivity.
Defined.

(** ** The list on the wire *)

Section Wire.

Implicit Types (db : DB) (us : list User).




End Wire.



(** ** Answers that are not a success *)

Lemma filter_keeps_all i (rows : list Row) :
  filter (fun r => id r = i) rows = [] -> filter (fun r => id r <> i) rows = rows.
Proof.
  induction rows as [|r rows IH]; [done|].
  rewrite (filter_cons (fun r => id r = i)), (filter_cons (fun r => id r <> i)).
  destruct (decide (id r = i)); [done|].
  destruct (decide (id r <> i)); [|done]. intros Hf. by rewrite IH.
Qed.

(** X17 - no row is written or removed behind a failure: a
    [CreateUser] that does not answer 201 and a [DeleteUser] that
    does not answer 200 leave the rows of the table as they were, and
    an [UpdateUser] that answers 400 or 404 leaves the whole database
    as it was. *)
Theorem failures_leave_rows
    (is_email : string -> bool) (db : DB) (c : Context) :
  (Status (fst (CreateUser is_email db c)) <> 201 ->
     users (snd (CreateUser is_email db c)) = users db) /\
  (Status (fst (DeleteUser db c)) <> 200 ->
     users (snd (DeleteUser db c)) = users db) /\
  (Status (fst (UpdateUser is_email db c)) = 400 \/
   Status (fst (UpdateUser is_email db c)) = 404 ->
     snd (UpdateUser is_email db c) = db).
Proof.
  split; [|split].
  - unfold CreateUser. destruct (ShouldBindJSON is_email c) as [err|b]; [done|].
    destruct (insert_user db (in_Name b) (in_Email b)) as [[e|r] db'] eqn:Hins.
    + intros _. cbn [ScanRow snd].
      pose proof (insert_user_error db (in_Name b) (in_Email b) e) as Hsame.
      rewrite Hins in Hsame. by apply Hsame.
    + cbn [ScanRow]. assert (fst (insert_user db (in_Name b) (in_Email b)) = inr r) as Hr
        by (by rewrite Hins).
      destruct (insert_user_row _ _ _ _ Hr) as (-> & _). by rewrite Scan_new_row.
  - unfold DeleteUser, delete_user. destruct (Atoi (Param c "id")) as [i|]; [|done].
    destruct (link db); [done|].
    destruct (filter (fun r => id r = i) (users db)) as [|r rest] eqn:Hf.
    + intros _. cbn [length Z.of_nat Z.eqb snd users set_users].
      by apply filter_keeps_all.
    + cbn [length]. destruct (Z.eqb_spec (Z.of_nat (S (length rest))) 0); [lia|done].
  - unfold UpdateUser, update_user. destruct (Atoi (Param c "id")) as [i|]; [|done].
    destruct (ShouldBindJSON is_email c) as [err|b]; [done|].
    destruct (link db); [done|].
    destruct (filter (fun r => id r = i) (users db)) as [|r0 rest]; [done|].
    cbn [ScanRow].
    destruct (Scan (set_row (in_Name b) (in_Email b) (now db) r0)) as [e|u] eqn:Hs.
    + pose proof (Scan_not_ErrNoRows (set_row (in_Name b) (in_Email b) (now db) r0)) as Hne.
      rewrite Hs in Hne. destruct e; cbn; intros [|]; done.
    + cbn. intros [|]; done.
Qed.

Lemma failures_leave_rows_witness :
  users (snd (CreateUser Sample.has_at Sample.db_down (Sample.ctx "" Sample.grace_body)))
    = users Sample.db_down /\
  users (snd (DeleteUser Sample.db2 (Sample.ctx "7" Sample.no_body))) = users Sample.db2 /\
  snd (UpdateUser Sample.has_at Sample.db2 (Sample.ctx "7" Sample.grace_body)) = Sample.db2.
Proof.
  split; [|split].
  - apply (proj1 (failures_leave_rows Sample.has_at Sample.db_down
                    (Sample.ctx "" Sample.grace_body))).
    discriminate.
  - apply (proj1 (proj2 (failures_leave_rows Sample.has_at Sample.db2
                           (Sample.ctx "7" Sample.no_body)))).
    discriminate.
  - apply (proj2 (proj2 (failures_leave_rows Sample.has_at Sample.db2
                           (Sample.ctx "7" Sample.grace_body)))).
    right. reflexivity.
Defined.

(** ** The email is required *)

Section Email.

Variable is_email : string -> bool.

Lemma decode_field_other_email saved (u : UserInput) k v :
  fold_key k <> "email" ->
  in_Email (snd (decode_field (saved, u) (k, v))) = in_Email u.
Proof.
  intros Hk. unfold decode_field.
  destruct (String.eqb (fold_key k) "name"); [by destruct v|].
  destruct (String.eqb_spec (fold_key k) "email") as [Heq|_]; done.
Qed.

Lemma decode_fields_no_email fields saved (u : UserInput) :
  (forall k v, (k, v) ∈ fields -> fold_key k <> "email") ->
  in_Email (snd (fold_left decode_field fields (saved, u))) = in_Email u.
Proof.
  revert saved u. induction fields as [|[k v] fields IH]; intros saved u Hno; [done|].
  cbn [fold_left]. destruct (decode_field (saved, u) (k, v)) as [saved' u'] eqn:Hd.
  rewrite IH.
  - change u' with (snd (saved', u')). rewrite <- Hd.
    apply decode_field_other_email. apply (Hno k v). apply list_elem_of_here.
  - intros k' v' Hin. apply (Hno k' v'). by apply list_elem_of_further.
Qed.

(** A body without an [email] key, or whose email is empty, does not
    bind. *)
Lemma ShouldBindJSON_no_email (c : Context) :
  (exists fields, Body c = Decoded (JObject fields) /\
                  forall k v, (k, v) ∈ fields -> fold_key k <> "email") \/
  (exists j u, Body c = Decoded j /\ Decode j = inr u /\ in_Email u = "") ->
  exists err, ShouldBindJSON is_email c = inl err.
Proof.
  assert (Hempty : forall u, in_Email u = "" -> validate is_email u <> []).
  { intros u He. unfold validate. rewrite He.
    by destruct (String.eqb (in_Name u) ""). }
  unfold ShouldBindJSON. intros [(fields & -> & Hno)|(j & u & -> & Hd & He)].
  - destruct (Decode (JObject fields)) as [e|u] eqn:Hd; [by eexists|].
    assert (in_Email u = "") as He.
    { unfold Decode in Hd.
      pose proof (decode_fields_no_email fields None
                    {| in_Name := ""; in_Email := "" |} Hno) as Hn.
      destruct (fold_left decode_field fields _) as [[e|] u']; [done|].
      by injection Hd as <-. }
    pose proof (Hempty u He). destruct (validate is_email u); [done | by eexists].
  - rewrite Hd. pose proof (Hempty u He).
    destruct (validate is_email u); [done | by eexists].
Qed.

End Email.

(** X18 - [CreateUser] and [UpdateUser] turn down a body that has no
    [email] key or an empty email: the answer is 400 (for
    [UpdateUser], once the id has parsed) and the database is as
    before. *)
Theorem email_is_required (is_email : string -> bool) (db : DB) (c : Context) :
  (exists fields, Body c = Decoded (JObject fields) /\
                  forall k v, (k, v) ∈ fields -> fold_key k <> "email") \/
  (exists j u, Body c = Decoded j /\ Decode j = inr u /\ in_Email u = "") ->
  (Status (fst (CreateUser is_email db c)) = 400 /\ snd (CreateUser is_email db c) = db) /\
  (Status (fst (UpdateUser is_email db c)) = 400 /\ snd (UpdateUser is_email db c) = db).
Proof.
  intros Hbody. destruct (ShouldBindJSON_no_email is_email c Hbody) as [err Herr].
  split.
  - unfold CreateUser. by rewrite Herr.
  - unfold UpdateUser. destruct (Atoi (Param c "id")); [by rewrite Herr | done].
Qed.

Lemma email_is_required_witness :
  Status (fst (CreateUser Sample.has_at Sample.db2
                 (Sample.ctx "" (Sample.body_of [("name", JString "Ada")])))) = 400 /\
  Status (fst (UpdateUser Sample.has_at Sample.db2
                 (Sample.ctx "1" (Sample.body_of [("name", JString "Ada");
                                                  ("email", JString "")])))) = 400.
Proof.
  split.
  - apply (email_is_required Sample.has_at Sample.db2
             (Sample.ctx "" (Sample.body_of [("name", JString "Ada")]))).
    left. exists [("name", JString "Ada")]. split; [reflexivity|].
    intros k v Hin. apply list_elem_of_singleton in Hin as [= -> ->]. by vm_compute.
  - apply (email_is_required Sample.has_at Sample.db2
             (Sample.ctx "1" (Sample.body_of [("name", JString "Ada"); ("email", JString "")]))).
    right. eexists _, _. split; [reflexivity|]. split; reflexivity.
Defined.
